(** * YOLOX_inference: the gRPC benchmarking client [ovms_grpc_yolox.py]

    A shallow embedding of the driver script and of the collaborators it
    calls, followed by the properties stated for it.

    The script is sequential glue around external calls (file system,
    console, inference server, OpenCV).  Those calls are modelled by a
    [World] that is threaded through a small state-and-exception monad;
    Python exceptions are the [Raise] outcome of a computation, and the
    world reached when the exception escapes is kept.

    Numbers that NumPy holds as floating point are modelled by exact
    rationals [Q]; only order-theoretic and structural facts are proved
    about them. *)

From Stdlib Require Import Ascii String QArith Qminmax Qfield SpecFloat.
From stdpp Require Import gmap strings list fin_maps.
From Equations Require Import Equations.

Open Scope Q_scope.

(** ** Rational helpers *)

(** [a < b] as a boolean, the form NumPy comparisons take. *)
Definition Qltb (a b : Q) : bool := negb (Qle_bool b a).

(** ** Detection post-processing *)

Module NMS.

(** An axis-aligned box in xyxy form. *)
Record Box := mkBox { bx1 : Q; by1 : Q; bx2 : Q; by2 : Q }.

(** A surviving detection: box, score and class index. *)
Record Detection := mkDet { det_box : Box; det_score : Q; det_cls : nat }.

Definition area (b : Box) : Q := (bx2 b - bx1 b) * (by2 b - by1 b).

Definition inter (a b : Box) : Q :=
  Qmax 0 (Qmin (bx2 a) (bx2 b) - Qmax (bx1 a) (bx1 b)) *
  Qmax 0 (Qmin (by2 a) (by2 b) - Qmax (by1 a) (by1 b)).

(** Intersection over union, the overlap ratio of two boxes. *)
Definition iou (a b : Box) : Q := inter a b / (area a + area b - inter a b).

(** A candidate of one class: a box and its score for that class. *)
Definition Cand : Type := Box * Q.

(** Stable insertion by descending score: a new candidate goes in front
    of the first one whose score is not greater than its own. *)
Fixpoint insert_desc (x : Cand) (l : list Cand) : list Cand :=
  match l with
  | [] => [x]
  | y :: ys => if Qltb (snd x) (snd y) then y :: insert_desc x ys else x :: l
  end.

Fixpoint sort_desc (l : list Cand) : list Cand :=
  match l with
  | [] => []
  | x :: xs => insert_desc x (sort_desc xs)
  end.

(** Modelled from the spec: [yoloa.utils] is not part of the sources at
    hand, so the greedy suppression loop of section 4.2 is written from
    the specification: keep the top candidate and discard every remaining
    one whose IoU with it exceeds the threshold, then repeat. *)
Equations greedy_nms (nms_thr : Q) (l : list Cand) : list Cand by wf (length l) lt :=
  greedy_nms nms_thr [] := [];
  greedy_nms nms_thr (top :: rest) :=
    top :: greedy_nms nms_thr
             (List.filter (fun r => negb (Qltb nms_thr (iou (fst top) (fst r)))) rest).
Next Obligation.
  simpl. apply Nat.lt_succ_r, filter_length_le.
Qed.

(** Number of classes: the width of the score matrix. *)
Definition num_classes (scores : list (list Q)) : nat :=
  match scores with
  | [] => O
  | row :: _ => length row
  end.

(** Candidates of class [c]: boxes whose class score is above the score
    threshold, in their original order. *)
Definition class_candidates (boxes : list Box) (scores : list (list Q))
    (score_thr : Q) (c : nat) : list Cand :=
  List.filter (fun p => Qltb score_thr (snd p))
    (combine boxes (map (fun row => nth c row 0) scores)).

Definition class_dets (boxes : list Box) (scores : list (list Q))
    (nms_thr score_thr : Q) (c : nat) : list Detection :=
  map (fun p => mkDet (fst p) (snd p) c)
    (greedy_nms nms_thr (sort_desc (class_candidates boxes scores score_thr c))).

(** Modelled from the spec: [multiclass_nms] of [yoloa.utils] is missing
    from the sources; this follows section 4.2.  Classes are processed
    independently, survivors are concatenated in class order, and the
    designated empty result is [None].  A candidate qualifies when its
    score is above the threshold, the reading under which "zero detections
    above threshold give the empty result" holds. *)
Definition multiclass_nms (boxes : list Box) (scores : list (list Q))
    (nms_thr score_thr : Q) : option (list Detection) :=
  match flat_map (class_dets boxes scores nms_thr score_thr)
          (seq 0 (num_classes scores)) with
  | [] => None
  | d :: ds => Some (d :: ds)
  end.

End NMS.

(** ** The Python run time the script relies on *)

Module Py.

Import NMS.

(** The exceptions that can escape the calls the script makes. *)
Inductive exn :=
| FileNotFoundError
| PermissionError
| IsADirectoryError
| ZeroDivisionError
| ValueError
| AttributeError
| InferenceServerException
| Cv2Error.

#[global] Instance exn_eq_dec : EqDecision exn.
Proof. solve_decision. Defined.

(** Outcome of a call: a value, an exception, or (for the camera loop
    only) the end of the finite frame budget given to the model. *)
Inductive res (A : Type) :=
| Ok (a : A)
| Raise (e : exn)
| OutOfFuel.
Arguments Ok {A} a.
Arguments Raise {A} e.
Arguments OutOfFuel {A}.

(** An image buffer: rows of pixels, each pixel a packed colour. *)
Abbreviation Image := (list (list Z)).

(** A cell of a CSV row: text or a number. *)
Inductive cell :=
| CStr (s : string)
| CNum (q : Q).

Inductive file :=
| TextFile (lines : list string)
| CsvFile (rows : list (list cell))
| ImageFile (img : Image).

(** What [print] sends to the console.  Fixed text is a string; the
    f-strings that format numbers keep the numbers. *)
Inductive printed :=
| PStr (s : string)
| PMetadata (model : string)
| PProgress (image_index total_length : nat) (prep infer postp : Q)
| PAvg (label : string) (avg : Q).

(** Calls that leave the process, in the order they happen. *)
Inductive event :=
| EvPrint (p : printed)
| EvMkdir (path : string)
| EvImread (path : string)
| EvInfer (model : string)
| EvVis (img : nat) (conf : Q)
| EvImwrite (path : string) (img : Image)
| EvThreadStart
| EvTerminate
| EvImshow (img : nat)
| EvDestroyAllWindows.

(** State of the GPU monitoring subprocess, the attribute [self.proc]
    that the sampler thread sets. *)
Inductive proc_state := ProcRunning | ProcTerminated.

(** The world outside the interpreter.
    - [fs]: regular files by path, spelled as the script spells it: two
      spellings of one location are two keys, so nothing is said here
      about a file reached under another name;
    - [refuse]: paths the operating system refuses to modify or remove,
      with the error it reports;
    - [dirs]: directories by path, with the names [os.listdir] returns;
    - [heap]: image buffers, addressed by position, so that two names
      for one buffer see the same pixels;
    - [gpu_proc]: the monitoring subprocess, if the sampler started it;
    - [tick]: number of clock readings so far;
    - [trace]: external calls so far. *)
Record World := mkWorld {
  fs : gmap string file;
  refuse : gmap string exn;
  dirs : gmap string (list string);
  heap : list Image;
  gpu_proc : option proc_state;
  tick : nat;
  trace : list event
}.

Definition set_fs (f : gmap string file) (w : World) : World :=
  mkWorld f (refuse w) (dirs w) (heap w) (gpu_proc w) (tick w) (trace w).
Definition set_heap (h : list Image) (w : World) : World :=
  mkWorld (fs w) (refuse w) (dirs w) h (gpu_proc w) (tick w) (trace w).
Definition set_gpu_proc (p : option proc_state) (w : World) : World :=
  mkWorld (fs w) (refuse w) (dirs w) (heap w) p (tick w) (trace w).
Definition set_tick (n : nat) (w : World) : World :=
  mkWorld (fs w) (refuse w) (dirs w) (heap w) (gpu_proc w) n (trace w).
Definition set_trace (t : list event) (w : World) : World :=
  mkWorld (fs w) (refuse w) (dirs w) (heap w) (gpu_proc w) (tick w) t.

(** Computations: world in, outcome and world out. *)
Definition M (A : Type) : Type := World -> res A * World.

Definition ret {A} (a : A) : M A := fun w => (Ok a, w).
Definition raise {A} (e : exn) : M A := fun w => (Raise e, w).
Definition out_of_fuel {A} : M A := fun w => (OutOfFuel, w).

Definition bind {A B} (m : M A) (k : A -> M B) : M B :=
  fun w =>
    match m w with
    | (Ok a, w') => k a w'
    | (Raise e, w') => (Raise e, w')
    | (OutOfFuel, w') => (OutOfFuel, w')
    end.

(** [try: m except e: h]: only the named exception is handled. *)
Definition try_except {A} (m : M A) (caught : exn) (h : M A) : M A :=
  fun w =>
    match m w with
    | (Raise e, w') => if decide (e = caught) then h w' else (Raise e, w')
    | r => r
    end.

Notation "'let!' x ':=' m 'in' k" := (bind m (fun x => k))
  (at level 10, x pattern, m at level 100, k at level 200).
Notation "m ';;' k" := (bind m (fun _ => k))
  (at level 100, k at level 200, right associativity).

Definition emit (e : event) : M unit :=
  fun w => (Ok tt, set_trace (trace w ++ [e]) w).

Definition print (p : printed) : M unit := emit (EvPrint p).

(** [os.remove]: a missing file is [FileNotFoundError]; an existing one
    is removed unless the operating system refuses. *)
Definition os_remove (path : string) : M unit :=
  fun w =>
    match fs w !! path with
    | None => (Raise FileNotFoundError, w)
    | Some _ =>
        match refuse w !! path with
        | Some e => (Raise e, w)
        | None => (Ok tt, set_fs (delete path (fs w)) w)
        end
    end.

(** [open(path, "w")] followed by writing [content] and closing. *)
Definition write_file (path : string) (content : file) : M unit :=
  fun w =>
    match refuse w !! path with
    | Some e => (Raise e, w)
    | None => (Ok tt, set_fs (<[path := content]> (fs w)) w)
    end.

(** [os.listdir]. *)
Definition os_listdir (path : string) : M (list string) :=
  fun w =>
    match dirs w !! path with
    | None => (Raise FileNotFoundError, w)
    | Some names => (Ok names, w)
    end.

(** [cv2.imread]: a fresh buffer holding the decoded image, or [None]
    when the path does not hold a readable image. *)
Definition cv2_imread (path : string) : M (option nat) :=
  emit (EvImread path) ;;
  fun w =>
    match fs w !! path with
    | Some (ImageFile img) => (Ok (Some (length (heap w))), set_heap (heap w ++ [img]) w)
    | _ => (Ok None, w)
    end.

(** Reading a buffer through a reference. *)
Definition deref (r : nat) : M Image :=
  fun w => (Ok (default [] (heap w !! r)), w).

(** [copy.copy] of an array: a new buffer with the same pixels. *)
Definition copy_copy (r : nat) : M nat :=
  let! img := deref r in
  fun w => (Ok (length (heap w)), set_heap (heap w ++ [img]) w).

(** *** Strings *)

Definition lower_ascii (c : ascii) : ascii :=
  let n := nat_of_ascii c in
  if (65 <=? n)%nat && (n <=? 90)%nat then ascii_of_nat (n + 32) else c.

(** [str.lower], on the ASCII letters. *)
Fixpoint lower (s : string) : string :=
  match s with
  | EmptyString => EmptyString
  | String c s' => String (lower_ascii c) (lower s')
  end.

(** [str.endswith] with one suffix. *)
Fixpoint endswith (s suffix : string) : bool :=
  String.eqb s suffix ||
  match s with
  | EmptyString => false
  | String _ s' => endswith s' suffix
  end.

(** [str.endswith] with a tuple of suffixes. *)
Definition endswith_any (s : string) (suffixes : list string) : bool :=
  existsb (endswith s) suffixes.

Definition slash : ascii := "/"%char.
Definition comma : ascii := ","%char.

Fixpoint has_slash (s : string) : bool :=
  match s with
  | EmptyString => false
  | String c s' => Ascii.eqb c slash || has_slash s'
  end.

(** [os.path.basename]: what follows the last slash. *)
Fixpoint basename (s : string) : string :=
  match s with
  | EmptyString => EmptyString
  | String c s' =>
      if has_slash s' then basename s'
      else if Ascii.eqb c slash then s' else s
  end.

Definition startswith_slash (s : string) : bool :=
  match s with
  | String c _ => Ascii.eqb c slash
  | EmptyString => false
  end.

(** [os.path.join] of two components. *)
Definition path_join (a b : string) : string :=
  if startswith_slash b then b
  else if String.eqb a EmptyString || endswith a (String slash EmptyString) then a +:+ b
  else a +:+ String slash b.

(** [str.split(",")]. *)
Fixpoint split_comma (s : string) : list string :=
  match s with
  | EmptyString => [EmptyString]
  | String c s' =>
      if Ascii.eqb c comma then EmptyString :: split_comma s'
      else match split_comma s' with
           | [] => [String c EmptyString]
           | piece :: pieces => String c piece :: pieces
           end
  end.

(** How an image encoder treats the pixels: a file that decodes to the
    same pixels, or to the encoder's approximation of them. *)
Inductive codec := Lossless | Lossy.

Definition dot : ascii := "."%char.

Definition is_alnum (c : ascii) : bool :=
  let n := nat_of_ascii c in
  ((48 <=? n)%nat && (n <=? 57)%nat)
  || ((65 <=? n)%nat && (n <=? 90)%nat)
  || ((97 <=? n)%nat && (n <=? 122)%nat).

(** What follows the last dot of a string, if it has one. *)
Fixpoint after_last_dot (s : string) : option string :=
  match s with
  | EmptyString => None
  | String c s' =>
      match after_last_dot s' with
      | Some t => Some t
      | None => if Ascii.eqb c dot then Some s' else None
      end
  end.

(** The longest prefix made of letters and digits. *)
Fixpoint alnum_run (s : string) : string :=
  match s with
  | EmptyString => EmptyString
  | String c s' => if is_alnum c then String c (alnum_run s') else EmptyString
  end.

(** The extension by which [cv2.imwrite] chooses its encoder: the
    letters and digits after the last dot of the whole file name,
    directories included, compared without regard to case. *)
Definition extension (path : string) : option string :=
  match after_last_dot path with
  | Some t => Some (lower (alnum_run t))
  | None => None
  end.

(** Python's [/] on numbers with an [int] divisor. *)
Definition py_div (a : Q) (n : nat) : M Q :=
  match n with
  | O => raise ZeroDivisionError
  | S _ => ret (a / inject_Z (Z.of_nat n))
  end.

End Py.

(** ** The driver script *)

Module Driver.

Import NMS Py.

Inductive dtype := FP16 | FP32.
Inductive mode := Img | Cam.

(** The parsed command line ([make_parser]). *)
Record Args := mkArgs {
  url : string;
  model : string;
  image_dir : string;
  folder_name : string;
  infer_mode : mode;
  input_shape : string;
  data_type : dtype
}.

(** What the script takes from outside its own file: the interpreter's
    start-up time and clock, the inference server, and the helpers of the
    [yoloa] package, whose code is not in the sources at hand and which
    the driver only calls. [vis_draw] is the picture [vis] makes of the
    buffer it is given; [convert_log_to_csv] acts on the file system and
    may fail; [camera] and [wait_key] give the frame and the key code of
    each round of the camera loop.  [vis_copies] tells whether [vis]
    returns a new buffer or the one it was given.  [cv2_codec] lists the
    image encoders of the OpenCV build by lower-case extension, and
    [reencode] is what a lossy encoder of that extension makes of the
    pixels. *)
Record Env := mkEnv {
  current_time : string;
  clock : nat -> Q;
  py_int : string -> option Z;
  is_server_live : bool;
  is_server_ready : bool;
  is_model_ready : string -> bool;
  server_infer : string -> list Q -> option (list Q);
  preprocess : Image -> list Z -> list Q * Q;
  astype : dtype -> list Q -> list Q;
  postprocess : list Q -> list Z -> list (list Q);
  vis_draw : Image -> list Box -> list Q -> list nat -> Q -> list string -> Image;
  COCO_CLASSES : list string;
  convert_log_to_csv : string -> string -> gmap string file -> exn + gmap string file;
  camera : nat -> Image;
  wait_key : nat -> Z;
  vis_copies : bool;
  cv2_codec : string -> option codec;
  reencode : string -> Image -> Image
}.

(** The object [PerformanceLogger] without [self.proc], which the
    sampler thread owns and which lives in the world as [gpu_proc]. *)
Record PerformanceLogger := mkLogger {
  running : bool;
  thread : bool;
  time_records : list (Q * Q * Q);
  temp_gpu_log : string;
  gpu_log : string;
  time_log : string
}.

Section WithEnv.

Variable E : Env.

(** [time.time()]. *)
Definition time_time : M Q :=
  fun w => (Ok (clock E (tick w)), set_tick (S (tick w)) w).

(** [PerformanceLogger.__init__]. *)
Definition PerformanceLogger_init : PerformanceLogger :=
  mkLogger false false []
    ("./" +:+ current_time E +:+ ".txt")
    ("./log/" +:+ current_time E +:+ "_gpu_log.csv")
    ("./log/" +:+ current_time E +:+ "_time_log.csv").

(** [PerformanceLogger.start_logging].  The body of the sampler thread
    runs beside the driver and is not part of this sequential model; the
    start of the thread is recorded.  What the thread does on its own,
    starting the monitoring subprocess (which sets [self.proc]) and
    filling the raw GPU log, does not appear in the worlds below: [fs]
    and [gpu_proc] after a call tell what the driver itself did, and
    nothing about the raw GPU log or the subprocess of a real run. *)
Definition start_logging (self : PerformanceLogger) : M PerformanceLogger :=
  emit EvThreadStart ;;
  ret (mkLogger true true (time_records self)
         (temp_gpu_log self) (gpu_log self) (time_log self)).

Definition terminate_proc : M unit :=
  fun w =>
    match gpu_proc w with
    | Some _ => emit EvTerminate (set_gpu_proc (Some ProcTerminated) w)
    | None => (Ok tt, w)
    end.

Definition call_convert_log_to_csv (src dst : string) : M unit :=
  fun w =>
    match convert_log_to_csv E src dst (fs w) with
    | inl e => (Raise e, w)
    | inr f => (Ok tt, set_fs f w)
    end.

Definition time_log_header : list cell :=
  [CStr "Preprocessing_Time(ms)"; CStr "Inference_Time(ms)"; CStr "Postprocessing_Time(ms)"].

Definition record_row (r : Q * Q * Q) : list cell :=
  let '(prep_time, infer_time, postp_time) := r in
  [CNum prep_time; CNum infer_time; CNum postp_time].

(** [PerformanceLogger.stop_logging]. *)
Definition stop_logging (self : PerformanceLogger) : M PerformanceLogger :=
  let self := mkLogger false (thread self) (time_records self)
                (temp_gpu_log self) (gpu_log self) (time_log self) in
  terminate_proc ;;
  call_convert_log_to_csv (temp_gpu_log self) (gpu_log self) ;;
  try_except (os_remove (temp_gpu_log self)) FileNotFoundError
    (print (PStr (temp_gpu_log self +:+ " not exists"))) ;;
  write_file (time_log self)
    (CsvFile (time_log_header :: map record_row (time_records self))) ;;
  print (PStr ("Saved log file: " +:+ time_log self)) ;;
  ret self.

(** [PerformanceLogger.log]. *)
Definition log (self : PerformanceLogger) (image_index total_length : nat)
    (prep_time infer_time postp_time : Q) : M PerformanceLogger :=
  let self := mkLogger (running self) (thread self)
                (time_records self ++ [(prep_time, infer_time, postp_time)])
                (temp_gpu_log self) (gpu_log self) (time_log self) in
  print (PProgress image_index total_length prep_time infer_time postp_time) ;;
  ret self.

(** [client.infer]. *)
Definition client_infer (model_name : string) (img : list Q) : M (list Q) :=
  emit (EvInfer model_name) ;;
  match server_infer E model_name img with
  | Some out => ret out
  | None => raise InferenceServerException
  end.

(** Column [k] of a prediction row. *)
Definition col (k : nat) (row : list Q) : Q := nth k row 0.

(** [pred[:, 4:5] * pred[:, 5:]] for one row. *)
Definition row_scores (row : list Q) : list Q :=
  map (Qmult (col 4 row)) (skipn 5 row).

(** Centre and size to corners, for one row. *)
Definition row_xyxy (row : list Q) : Box :=
  mkBox (col 0 row - col 2 row / 2) (col 1 row - col 3 row / 2)
        (col 0 row + col 2 row / 2) (col 1 row + col 3 row / 2).

(** [boxes_xyxy /= ratio] for one box. *)
Definition descale (ratio : Q) (b : Box) : Box :=
  mkBox (bx1 b / ratio) (by1 b / ratio) (bx2 b / ratio) (by2 b / ratio).

(** Boxes and scores handed to [multiclass_nms]. *)
Definition decode (pred : list (list Q)) (ratio : Q) : list Box * list (list Q) :=
  (map (fun row => descale ratio (row_xyxy row)) pred, map row_scores pred).

Definition nms_thr : Q := 45 # 100.
Definition score_thr : Q := 3 # 10.
Definition conf : Q := 3 # 10.

(** Modelled from the spec: [yoloa.visualize.vis] is missing from the
    sources.  The spec has it both ways: section 3 says the image is
    "mutated in place by visualization", section 4.3 that the frame is
    left as it was.  Both are kept: with [vis_copies] the picture
    [vis_draw] goes to a new buffer, which is returned; without, it
    replaces the pixels of the buffer given, which is returned. *)
Definition vis (img : nat) (boxes : list Box) (scores : list Q) (cls_ids : list nat)
    (conf : Q) (class_names : list string) : M nat :=
  emit (EvVis img conf) ;;
  let! pixels := deref img in
  let picture := vis_draw E pixels boxes scores cls_ids conf class_names in
  fun w =>
    if vis_copies E
    then (Ok (length (heap w)), set_heap (heap w ++ [picture]) w)
    else (Ok img, set_heap (<[img := picture]> (heap w)) w).

(** The encoder [cv2.imwrite] finds for a file name: none without a
    dot, none for an extension with no letter or digit, else the one the
    build has for the extension. *)
Definition cv2_encoder (path : string) : option codec :=
  match extension path with
  | Some ext => if String.eqb ext EmptyString then None else cv2_codec E ext
  | None => None
  end.

(** The pixels a file written through the encoder [c] decodes to. *)
Definition stored (c : codec) (path : string) (img : Image) : Image :=
  match c with
  | Lossless => img
  | Lossy => reencode E (default EmptyString (extension path)) img
  end.

(** [cv2.imwrite]: raises [cv2.error] before writing anything when no
    encoder matches the file name; else encodes the buffer [r] into
    [path], and a refused path is reported by the return value, not by
    an exception. *)
Definition cv2_imwrite (path : string) (r : nat) : M bool :=
  let! img := deref r in
  emit (EvImwrite path img) ;;
  match cv2_encoder path with
  | None => raise Cv2Error
  | Some c =>
      fun w =>
        match refuse w !! path with
        | Some _ => (Ok false, w)
        | None => (Ok true, set_fs (<[path := ImageFile (stored c path img)]> (fs w)) w)
        end
  end.

(** The part shared by both modes after [multiclass_nms]: draw when there
    are detections, on the buffer [target]. *)
Definition vis_dets (target : nat) (dets : list Detection) : M nat :=
  vis target (map det_box dets) (map det_score dets) (map det_cls dets)
      conf (COCO_CLASSES E).

(** [infer_image]. *)
Definition infer_image (model_name input_path output_path : string)
    (shape : list Z) (d_type : dtype) : M (Q * Q * Q) :=
  let! prep_s := time_time in
  let! origin_img := cv2_imread input_path in
  match origin_img with
  | None => raise AttributeError
  | Some origin_img =>
      let! pixels := deref origin_img in
      let '(img, ratio) := preprocess E pixels shape in
      let img := astype E d_type img in
      let! prep_e := time_time in
      let! infer_s := time_time in
      let! res := client_infer model_name img in
      let! infer_e := time_time in
      let res_copy := astype E d_type res in
      let! postp_s := time_time in
      let pred := postprocess E res_copy shape in
      let '(boxes_xyxy, scores) := decode pred ratio in
      let dets := multiclass_nms boxes_xyxy scores nms_thr score_thr in
      let! origin_img :=
        match dets with
        | Some dets => vis_dets origin_img dets
        | None => ret origin_img
        end in
      let output_path := path_join output_path (basename input_path) in
      cv2_imwrite output_path origin_img ;;
      let! postp_e := time_time in
      ret ((prep_e - prep_s) * 1000, (infer_e - infer_s) * 1000, (postp_e - postp_s) * 1000)
  end.

(** [infer_camera]; [input] is the captured frame.  The request is
    declared with the fixed shape [1, 3, 416, 416] whatever [shape] is,
    and the client refuses a tensor of another shape before anything is
    sent.  This definition follows the call for the shape that fits,
    [request_shape_fits] below; it has no case for the refusal, so for
    another shape it goes on where the real call stops.  What is said of
    the picture a call returns is therefore said for the fitting shape
    only. *)
Definition infer_camera (model_name : string) (input : nat)
    (shape : list Z) (d_type : dtype) : M nat :=
  let! pixels := deref input in
  let '(img, ratio) := preprocess E pixels shape in
  let img := astype E d_type img in
  let! res := client_infer model_name img in
  let res_copy := astype E d_type res in
  let pred := postprocess E res_copy shape in
  let '(boxes_xyxy, scores) := decode pred ratio in
  let dets := multiclass_nms boxes_xyxy scores nms_thr score_thr in
  let! output := copy_copy input in
  match dets with
  | Some dets => vis_dets input dets
  | None => ret output
  end.

(** [tuple(map(int, s.split(",")))]. *)
Fixpoint map_int (pieces : list string) : M (list Z) :=
  match pieces with
  | [] => ret []
  | p :: ps =>
      match py_int E p with
      | None => raise ValueError
      | Some n => let! ns := map_int ps in ret (n :: ns)
      end
  end.

Definition parse_input_shape (s : string) : M (list Z) := map_int (split_comma s).

Definition accepted_suffixes : list string := ["png"; "jpg"; "jpeg"]%string.

(** The filter of the list comprehension that builds [image_files]. *)
Definition accepted (f : string) : bool := endswith_any (lower f) accepted_suffixes.

Definition image_files_of (dir : string) (names : list string) : list string :=
  map (path_join dir) (List.filter accepted names).

(** The [for] loop of batch mode; [image_index] counts from 1. *)
Fixpoint batch_loop (model_name output_path : string) (shape : list Z) (d_type : dtype)
    (total_length : nat) (image_index : nat) (files : list string)
    (totals : Q * Q * Q) (logger : PerformanceLogger)
    : M (Q * Q * Q * PerformanceLogger) :=
  match files with
  | [] => ret (totals, logger)
  | image_path :: rest =>
      let! times := infer_image model_name image_path output_path shape d_type in
      let '(prep_time, infer_time, postp_time) := times in
      let '(total_prep_time, total_infer_time, total_postp_time) := totals in
      let totals := (total_prep_time + prep_time, total_infer_time + infer_time,
                     total_postp_time + postp_time) in
      let! logger := log logger image_index total_length prep_time infer_time postp_time in
      batch_loop model_name output_path shape d_type total_length (S image_index)
        rest totals logger
  end.

(** One captured frame becomes a buffer of its own. *)
Definition get_video_from_pipeline (k : nat) : M nat :=
  fun w => (Ok (length (heap w)), set_heap (heap w ++ [camera E k]) w).

(** [cv2.waitKey(1) & 0xFF in [ord("q"), 27]]. *)
Definition quit_key (key : Z) : bool :=
  let k := Z.land key 255 in (k =? 113)%Z || (k =? 27)%Z.

(** The [while True] loop of camera mode, for at most [fuel] frames. *)
Fixpoint cam_loop (model_name : string) (shape : list Z) (d_type : dtype)
    (fuel k : nat) : M unit :=
  match fuel with
  | O => out_of_fuel
  | S fuel' =>
      let! input := get_video_from_pipeline k in
      let! output := infer_camera model_name input shape d_type in
      emit (EvImshow output) ;;
      if quit_key (wait_key E k) then emit EvDestroyAllWindows
      else cam_loop model_name shape d_type fuel' (S k)
  end.

(** The batch branch of [main].  The helper [mkdir] of [yoloa.utils] is
    recorded as a call. *)
Definition run_batch (args : Args) (shape : list Z) (logger : PerformanceLogger) : M unit :=
  let output_path := "./output/" +:+ folder_name args in
  emit (EvMkdir output_path) ;;
  let! names := os_listdir (image_dir args) in
  let image_files := image_files_of (image_dir args) names in
  let! logger := start_logging logger in
  let! r := batch_loop (model args) output_path shape (data_type args)
              (length image_files) 1 image_files (0, 0, 0) logger in
  let '(total_prep_time, total_infer_time, total_postp_time, logger) := r in
  print (PStr EmptyString) ;;
  let! avg := py_div total_prep_time (length image_files) in
  print (PAvg "Avg preprocess time" avg) ;;
  let! avg := py_div total_infer_time (length image_files) in
  print (PAvg "Avg inference time" avg) ;;
  let! avg := py_div total_postp_time (length image_files) in
  print (PAvg "Avg postprocess time" avg) ;;
  stop_logging logger ;;
  ret tt.

(** [main], on parsed arguments; [fuel] bounds the camera loop. *)
Definition main (args : Args) (fuel : nat) : M unit :=
  let! shape := parse_input_shape (input_shape args) in
  let logger := PerformanceLogger_init in
  if negb (is_server_live E && is_server_ready E && is_model_ready E (model args))
  then print (PStr "Triton server or model is not ready.")
  else
    print (PMetadata (model args)) ;;
    match infer_mode args with
    | Img => run_batch args shape logger
    | Cam => cam_loop (model args) shape (data_type args) fuel 0
    end.

End WithEnv.

End Driver.

(** ** Notions used to state the properties *)

Module Notions.

Import NMS Py Driver.

Section WithEnv.

Variable E : Env.

(** The boxes and scores that the pipeline hands to [multiclass_nms]
    for the pixels of one image, when the server answers. *)
Definition candidates_of (model_name : string) (shape : list Z) (d_type : dtype)
    (pixels : Image) : option (list Box * list (list Q)) :=
  let '(img, ratio) := preprocess E pixels shape in
  match server_infer E model_name (astype E d_type img) with
  | Some out => Some (decode (postprocess E (astype E d_type out) shape) ratio)
  | None => None
  end.

(** The pixels [vis] leaves for the detections [dets], as both modes
    call it. *)
Definition drawn (pixels : Image) (dets : list Detection) : Image :=
  vis_draw E pixels (map det_box dets) (map det_score dets) (map det_cls dets)
    conf (COCO_CLASSES E).

(** The picture that leaves the pipeline for a result of
    [multiclass_nms]. *)
Definition pictured (pixels : Image) (dets : option (list Detection)) : Image :=
  match dets with
  | Some dets => drawn pixels dets
  | None => pixels
  end.

(** The call of [vis] in the trace, if any. *)
Definition vis_events (img : nat) (dets : option (list Detection)) : list event :=
  match dets with
  | Some _ => [EvVis img conf]
  | None => []
  end.

(** The buffers batch mode adds for one image: the one [cv2.imread]
    made and, when [vis] copies, the one [vis] made. *)
Definition batch_buffers (pixels : Image) (dets : option (list Detection)) : list Image :=
  match dets with
  | Some dets => if vis_copies E then [pixels; drawn pixels dets] else [drawn pixels dets]
  | None => [pixels]
  end.

(** The world batch mode leaves after one image whose candidates give
    [dets]: the picture is handed to [cv2.imwrite] and, when the name
    [out] has an encoder and the path is not refused, the output file
    holds what the encoder makes of it.  Without an encoder the sixth
    clock reading is not reached. *)
Definition batch_world (model_name input_path out : string) (pixels : Image)
    (dets : option (list Detection)) (w : World) : World :=
  let pic := pictured pixels dets in
  mkWorld
    (match cv2_encoder E out, refuse w !! out with
     | Some c, None => <[out := ImageFile (stored E c out pic)]> (fs w)
     | _, _ => fs w
     end)
    (refuse w) (dirs w) (heap w ++ batch_buffers pixels dets) (gpu_proc w)
    (match cv2_encoder E out with Some _ => 6 | None => 5 end + tick w)
    (trace w ++ [EvImread input_path; EvInfer model_name]
       ++ vis_events (length (heap w)) dets ++ [EvImwrite out pic]).

(** What [infer_image] gives for such an image: the durations between
    its clock readings, or [cv2.error] from [cv2.imwrite]. *)
Definition durations (t : nat) : Q * Q * Q :=
  ((clock E (1 + t) - clock E t) * 1000,
   (clock E (3 + t) - clock E (2 + t)) * 1000,
   (clock E (5 + t) - clock E (4 + t)) * 1000).

Definition batch_outcome (out : string) (w : World) : res (Q * Q * Q) :=
  match cv2_encoder E out with
  | Some _ => Ok (durations (tick w))
  | None => Raise Cv2Error
  end.

(** The world camera mode leaves after one frame held by buffer [input]:
    a new buffer holds the copy made by [copy.copy], and when [vis]
    copies, one more holds the drawing. *)
Definition cam_world (model_name : string) (input : nat) (frame : Image)
    (dets : option (list Detection)) (w : World) : World :=
  mkWorld (fs w) (refuse w) (dirs w)
    (match dets with
     | Some dets =>
         if vis_copies E then heap w ++ [frame; drawn frame dets]
         else <[input := drawn frame dets]> (heap w ++ [frame])
     | None => heap w ++ [frame]
     end)
    (gpu_proc w) (tick w)
    (trace w ++ [EvInfer model_name] ++ vis_events input dets).

(** The buffer [infer_camera] returns. *)
Definition cam_output (input : nat) (dets : option (list Detection)) (w : World) : nat :=
  match dets with
  | Some _ => if vis_copies E then S (length (heap w)) else input
  | None => length (heap w)
  end.

End WithEnv.

(** Two boxes are compatible when their overlap does not exceed the
    threshold. *)
Definition compatible (thr : Q) (a b : Box) : Prop := ~ thr < iou a b.

(** Detections of one class are compatible; of different classes,
    unconstrained. *)
Definition class_compatible (thr : Q) (d1 d2 : Detection) : Prop :=
  det_cls d1 = det_cls d2 -> compatible thr (det_box d1) (det_box d2).

(** The scaling that undoes [descale], multiplication by [ratio]. *)
Definition rescale (ratio : Q) (b : Box) : Box :=
  mkBox (bx1 b * ratio) (by1 b * ratio) (bx2 b * ratio) (by2 b * ratio).


(** The logger [stop_logging] returns. *)
Definition stopped (self : PerformanceLogger) : PerformanceLogger :=
  mkLogger false (thread self) (time_records self)
    (temp_gpu_log self) (gpu_log self) (time_log self).

(** The rows [stop_logging] writes to the timing CSV. *)
Definition time_log_rows (self : PerformanceLogger) : list (list cell) :=
  time_log_header :: map record_row (time_records self).


(** The one shape for which the request of [infer_camera], declared as
    [1, 3, 416, 416], takes the tensor made for [shape]. *)
Definition request_shape_fits (shape : list Z) : Prop := shape = [416; 416]%Z.


(** Batch mode leaves the buffer that [cv2.imread] filled as it was
    loaded: the reading of "draws onto a copy" that is put to the test. *)
Definition batch_leaves_loaded_buffer (E : Env) : Prop :=
  forall (model_name input_path output_path : string) (shape : list Z) (d_type : dtype)
         (w : World) (pixels : Image) (times : Q * Q * Q) (w' : World),
    fs w !! input_path = Some (ImageFile pixels) ->
    infer_image E model_name input_path output_path shape d_type w = (Ok times, w') ->
    heap w' !! length (heap w) = Some pixels.

(** Camera mode leaves the drawing in the captured frame: the reading
    of "draws in place" that is put to the test. *)
Definition camera_draws_on_frame (E : Env) : Prop :=
  forall (model_name : string) (input : nat) (shape : list Z) (d_type : dtype)
         (w : World) (frame : Image) (boxes : list Box) (scores : list (list Q))
         (dets : list Detection) (output : nat) (w' : World),
    heap w !! input = Some frame ->
    candidates_of E model_name shape d_type frame = Some (boxes, scores) ->
    multiclass_nms boxes scores nms_thr score_thr = Some dets ->
    infer_camera E model_name input shape d_type w = (Ok output, w') ->
    heap w' !! input = Some (drawn E frame dets).

(** C5 as the spec has it: a copy in batch mode, in place in camera
    mode. *)
Definition copy_in_batch_in_place_in_camera (E : Env) : Prop :=
  batch_leaves_loaded_buffer E /\ camera_draws_on_frame E.

(** [n] calls of [log], one per record, numbered from [image_index]. *)
Fixpoint log_each (self : PerformanceLogger) (total_length image_index : nat)
    (records : list (Q * Q * Q)) : M PerformanceLogger :=
  match records with
  | [] => ret self
  | (prep_time, infer_time, postp_time) :: rest =>
      let! self := log self image_index total_length prep_time infer_time postp_time in
      log_each self total_length (S image_index) rest
  end.

(** Whatever makes the removal of the temporary GPU log fail once the
    conversion is done, [stop_logging] returns normally and the timing
    CSV exists: the reading of "any failure is swallowed" that is put to
    the test. *)
Definition removal_failure_swallowed (E : Env) : Prop :=
  forall (self : PerformanceLogger) (w w1 : World) (f : gmap string file) (e : exn),
    convert_log_to_csv E (temp_gpu_log self) (gpu_log self) (fs w) = inr f ->
    os_remove (temp_gpu_log self) (set_fs f w) = (Raise e, w1) ->
    refuse w !! time_log self = None ->
    exists self' w',
      stop_logging E self w = (Ok self', w') /\ is_Some (fs w' !! time_log self).

(** The paths of the images read, in order. *)
Definition images_read (t : list event) : list string :=
  flat_map (fun e => match e with EvImread p => [p] | _ => [] end) t.

(** The paths of the images written, in order. *)
Definition images_written (t : list event) : list string :=
  flat_map (fun e => match e with EvImwrite p _ => [p] | _ => [] end) t.

(** Where batch mode writes the picture of [input_path]. *)
Definition out_path (output_path input_path : string) : string :=
  path_join output_path (basename input_path).

(** The models asked for an inference, in order. *)
Definition inferences (t : list event) : list string :=
  flat_map (fun e => match e with EvInfer m => [m] | _ => [] end) t.

End Notions.

(** ** Descaling in the arithmetic of the arrays *)

Module Float32.

(** NumPy's [float32], the element type of the arrays on the FP32 path:
    IEEE-754 binary32, every operation rounded to nearest, ties to
    even. *)
Definition prec : Z := 24.
Definition emax : Z := 128.

Definition f32_div (a b : spec_float) : spec_float := SFdiv prec emax a b.
Definition f32_mul (a b : spec_float) : spec_float := SFmul prec emax a b.



(** [boxes_xyxy /= ratio] on one row of coordinates; the scalar [ratio]
    takes the element type of the array. *)
Definition descale (ratio : spec_float) (row : list spec_float) : list spec_float :=
  map (fun x => f32_div x ratio) row.

(** The re-scaling the spec speaks of, multiplication by [ratio]; the
    script itself never does it. *)
Definition rescale (ratio : spec_float) (row : list spec_float) : list spec_float :=
  map (fun x => f32_mul x ratio) row.



End Float32.

(** ** Sample data *)

Module Samples.

Import NMS Py Driver.

(** Three candidates and two classes: the first two boxes overlap with
    IoU 9/11, the third is apart. *)
Definition box_a : Box := mkBox 0 0 10 10.
Definition box_b : Box := mkBox 1 0 11 10.
Definition box_c : Box := mkBox 20 20 30 30.

Definition boxes3 : list Box := [box_a; box_b; box_c].

Definition scores3 : list (list Q) :=
  [[9 # 10; 1 # 10]; [8 # 10; 5 # 10]; [7 # 10; 2 # 10]].

Definition dets3 : list Detection :=
  [mkDet box_a (9 # 10) 0; mkDet box_c (7 # 10) 0; mkDet box_b (5 # 10) 1].

(** A small environment.  The picture itself carries the raw prediction
    row: preprocessing flattens the pixels, the server echoes its input,
    and post-processing returns that one row.  Drawing paints every pixel
    white.  The log conversion turns each line into a one-cell row and
    gives an empty table when there is no raw log.  The build encodes
    png without loss and jpg and jpeg with loss, here the loss of the
    lowest bit of every value. *)
Definition env_with (copies live ready : bool) (model_ready : string -> bool) : Env :=
  mkEnv "20240101_120000"
    (fun n => inject_Z (Z.of_nat n))
    (fun s => if String.eqb s "416" then Some 416%Z else None)
    live ready model_ready
    (fun _ t => Some t)
    (fun pixels _ => (map inject_Z (concat pixels), 1))
    (fun _ t => t)
    (fun t _ => [t])
    (fun pixels _ _ _ _ _ => map (map (fun _ => 255%Z)) pixels)
    ["person"; "bicycle"]%string
    (fun src dst f =>
       match f !! src with
       | Some (TextFile ls) => inr (<[dst := CsvFile (map (fun l => [CStr l]) ls)]> f)
       | _ => inr (<[dst := CsvFile []]> f)
       end)
    (fun _ => [[5; 5; 10; 10; 1; 1; 0]]%Z)
    (fun _ => 113%Z)
    copies
    (fun ext =>
       if String.eqb ext "png" then Some Lossless
       else if String.eqb ext "jpg" || String.eqb ext "jpeg" then Some Lossy
       else None)
    (fun _ pixels => map (map (fun v => (2 * (v / 2))%Z)) pixels).

Definition env_of (live ready : bool) (model_ready : string -> bool) : Env :=
  env_with false live ready model_ready.

Definition env : Env := env_of true true (fun _ => true).

(** The same environment with a [vis] that returns a new buffer. *)
Definition env_copying : Env := env_with true true true (fun _ => true).

(** A picture with one confident object of class 0 and one with none. *)
Definition img_hit : Image := [[5; 5; 10; 10; 1; 1; 0]]%Z.
Definition img_miss : Image := [[5; 5; 10; 10; 0; 1; 0]]%Z.

Definition shape416 : list Z := [416; 416]%Z.

Definition files : gmap string file :=
  <["data/a.png" := ImageFile img_hit]>
    (<["data/b.JPG" := ImageFile img_miss]>
       (<["data/notes.txt" := TextFile ["hello"]]>
          (<["./20240101_120000.txt" := TextFile ["Freq MHz"; "300"]]> ∅)))%string.

Definition world : World :=
  mkWorld files ∅ {["data" := ["a.png"; "notes.txt"; "b.JPG"]]}%string [] None 0 [].

(** The same world with the frame [img_hit] or [img_miss] in buffer 0. *)
Definition world_with (frame : Image) : World :=
  mkWorld files ∅ ∅ [frame] None 0 [].

(** A world whose one picture has a name without a dot, which the
    filter of batch mode takes. *)
Definition world_bare_name : World :=
  mkWorld {["data/png" := ImageFile img_miss]}%string ∅
    {["data" := ["png"]]}%string [] None 0 [].

(** A world in which the sampler has not created the raw GPU log. *)
Definition world_no_temp : World :=
  mkWorld (delete "./20240101_120000.txt"%string files) ∅
    {["data" := ["a.png"; "notes.txt"; "b.JPG"]]}%string [] None 0 [].

(** The same world, where the operating system refuses to remove the
    temporary GPU log. *)
Definition world_locked : World :=
  mkWorld files {["./20240101_120000.txt" := PermissionError]}%string
    {["data" := ["a.png"; "notes.txt"; "b.JPG"]]}%string [] None 0 [].

Definition records3 : list (Q * Q * Q) :=
  [(12 # 10, 85 # 10, 31 # 10); (11 # 10, 80 # 10, 30 # 10); (13 # 10, 90 # 10, 29 # 10)].

Definition args_of (dir : string) (m : mode) : Args :=
  mkArgs "localhost:9000" "yolox_tiny_coco80_ov_fp32" dir "test" m "416,416" FP32.

End Samples.

(** ** What a run shows on the console and on screen *)

Module Observations.

Import NMS Py Driver Notions.

(** The buffers handed to [cv2.imshow], in order. *)
Definition shown (t : list event) : list nat :=
  flat_map (fun e => match e with EvImshow r => [r] | _ => [] end) t.

(** The progress lines printed by [log]: index, total and the three
    durations. *)
Definition progress_lines (t : list event) : list (nat * nat * (Q * Q * Q)) :=
  flat_map (fun e => match e with
                     | EvPrint (PProgress i n prep infer postp) => [(i, n, (prep, infer, postp))]
                     | _ => []
                     end) t.

(** The calls camera mode makes: the metadata line, inference requests,
    drawing and the window. *)
Definition camera_event (e : event) : bool :=
  match e with
  | EvPrint (PMetadata _) | EvInfer _ | EvVis _ _ | EvImshow _ | EvDestroyAllWindows => true
  | _ => false
  end.

(** [",".join(pieces)]. *)
Fixpoint join_comma (pieces : list string) : string :=
  match pieces with
  | [] => EmptyString
  | p :: rest =>
      match rest with
      | [] => p
      | _ => p +:+ String comma (join_comma rest)
      end
  end.

Fixpoint count_commas (s : string) : nat :=
  match s with
  | EmptyString => O
  | String c s' => (if Ascii.eqb c comma then 1 else 0) + count_commas s'
  end.

Fixpoint has_dot (s : string) : bool :=
  match s with
  | EmptyString => false
  | String c s' => Ascii.eqb c dot || has_dot s'
  end.

(** The clock never runs backwards. *)
Definition monotone_clock (E : Env) : Prop :=
  forall n, clock E n <= clock E (S n).


(** An environment that differs from [E] in the server's answers only. *)
Definition with_server (E : Env) (answer : string -> list Q -> option (list Q)) : Env :=
  mkEnv (current_time E) (clock E) (py_int E)
    (is_server_live E) (is_server_ready E) (is_model_ready E)
    answer (preprocess E) (astype E) (postprocess E)
    (vis_draw E) (COCO_CLASSES E) (convert_log_to_csv E) (camera E) (wait_key E)
    (vis_copies E) (cv2_codec E) (reencode E).

(** An environment that differs from [E] in the log conversion only. *)
Definition with_convert (E : Env)
    (conv : string -> string -> gmap string file -> exn + gmap string file) : Env :=
  mkEnv (current_time E) (clock E) (py_int E)
    (is_server_live E) (is_server_ready E) (is_model_ready E)
    (server_infer E) (preprocess E) (astype E) (postprocess E)
    (vis_draw E) (COCO_CLASSES E) conv (camera E) (wait_key E)
    (vis_copies E) (cv2_codec E) (reencode E).

End Observations.

Import NMS Py Driver Notions.
Import Observations.

(** * Properties *)

(** ** Comparisons on rationals *)

Lemma Qltb_lt a b : Qltb a b = true <-> a < b.
Proof.
  unfold Qltb. rewrite negb_true_iff. split.
  - intros H. apply Qnot_le_lt. intros Hle.
    apply Qle_bool_iff in Hle. congruence.
  - intros H. destruct (Qle_bool b a) eqn:Hba; [|reflexivity].
    apply Qle_bool_iff in Hba. exfalso. exact (Qlt_not_le _ _ H Hba).
Qed.

Lemma Qltb_nlt a b : Qltb a b = false <-> ~ a < b.
Proof.
  rewrite <- Qltb_lt. destruct (Qltb a b); split; intros; congruence.
Qed.

(** ** Suppression *)

Section Suppression.

Variable thr : Q.

Lemma inter_sym a b : inter a b == inter b a.
Proof.
  unfold inter.
  rewrite (Q.min_comm (bx2 a)), (Q.max_comm (bx1 a)),
          (Q.min_comm (by2 a)), (Q.max_comm (by1 a)).
  reflexivity.
Qed.

Lemma iou_sym a b : iou a b == iou b a.
Proof.
  unfold iou. rewrite (inter_sym a b).
  assert (Hd : area a + area b - inter b a == area b + area a - inter b a) by ring.
  rewrite Hd. reflexivity.
Qed.

Lemma compatible_sym a b : compatible thr a b -> compatible thr b a.
Proof. unfold compatible. rewrite (iou_sym b a). auto. Qed.

Lemma greedy_nms_incl l x : In x (greedy_nms thr l) -> In x l.
Proof.
  revert x. funelim (greedy_nms thr l); intros x Hx.
  - simp greedy_nms in Hx.
  - simp greedy_nms in Hx. destruct Hx as [->|Hx]; [left; reflexivity|].
    right. apply H in Hx. apply filter_In in Hx. tauto.
Qed.

Lemma greedy_nms_pairs l :
  ForallOrdPairs (fun a b => compatible thr (fst a) (fst b)) (greedy_nms thr l).
Proof.
  funelim (greedy_nms thr l); simp greedy_nms.
  - constructor.
  - constructor; [|exact H].
    apply Forall_forall. intros x Hx. apply list_elem_of_In in Hx.
    apply greedy_nms_incl, filter_In in Hx. destruct Hx as [_ Hx].
    apply negb_true_iff, Qltb_nlt in Hx. exact Hx.
Qed.

End Suppression.

(** ** Ordered pairs of a list *)

Section OrdPairs.

Context {A B : Type}.

Lemma FOP_app (R : A -> A -> Prop) (l1 l2 : list A) :
  ForallOrdPairs R l1 -> ForallOrdPairs R l2 ->
  (forall a b, In a l1 -> In b l2 -> R a b) ->
  ForallOrdPairs R (l1 ++ l2).
Proof.
  induction 1 as [|a l Ha Hl IH]; intros H2 Hc; simpl; [exact H2|].
  constructor.
  - apply Forall_app. split; [exact Ha|].
    apply Forall_forall. intros b Hb. apply list_elem_of_In in Hb.
    apply Hc; [left; reflexivity|exact Hb].
  - apply IH; [exact H2|]. intros x y Hx Hy. apply Hc; [right; exact Hx|exact Hy].
Qed.

Lemma FOP_impl (R R' : A -> A -> Prop) (l : list A) :
  (forall a b, R a b -> R' a b) -> ForallOrdPairs R l -> ForallOrdPairs R' l.
Proof.
  intros HR. induction 1 as [|a l Ha Hl IH]; constructor; [|exact IH].
  eapply Forall_impl; [exact Ha|]. intros b. apply HR.
Qed.

Lemma FOP_map (f : B -> A) (R : A -> A -> Prop) (l : list B) :
  ForallOrdPairs (fun x y => R (f x) (f y)) l -> ForallOrdPairs R (map f l).
Proof.
  induction 1 as [|a l Ha Hl IH]; simpl; constructor; [|exact IH].
  apply Forall_map. exact Ha.
Qed.

Lemma FOP_lookup_lt (R : A -> A -> Prop) (l : list A) (i j : nat) (a b : A) :
  ForallOrdPairs R l -> (i < j)%nat -> l !! i = Some a -> l !! j = Some b -> R a b.
Proof.
  intros H. revert i j. induction H as [|x l Hx Hl IH]; intros i j Hij Hi Hj.
  - discriminate.
  - destruct j as [|j]; [lia|]. destruct i as [|i]; simpl in *.
    + injection Hi as <-. rewrite Forall_forall in Hx. apply Hx.
      apply list_elem_of_lookup. eauto.
    + apply (IH i j); [lia|assumption|assumption].
Qed.

Lemma FOP_lookup (R : A -> A -> Prop) (l : list A) (i j : nat) (a b : A) :
  (forall x y, R x y -> R y x) ->
  ForallOrdPairs R l -> i <> j -> l !! i = Some a -> l !! j = Some b -> R a b.
Proof.
  intros Hsym H Hij Hi Hj.
  destruct (Nat.lt_ge_cases i j) as [Hlt|Hge].
  - exact (FOP_lookup_lt R l i j a b H Hlt Hi Hj).
  - apply Hsym. apply (FOP_lookup_lt R l j i b a H); [lia|assumption|assumption].
Qed.

End OrdPairs.

(** ** Multiclass suppression *)

Section Multiclass.

Variables (boxes : list Box) (scores : list (list Q)) (nms_thr score_thr : Q).

Lemma insert_desc_In x y l : In y (insert_desc x l) -> y = x \/ In y l.
Proof.
  induction l as [|z l IH]; simpl.
  - intros [<-|[]]. left; reflexivity.
  - destruct (Qltb (snd x) (snd z)); simpl.
    + intros [<-|H]; [right; left; reflexivity|].
      destruct (IH H) as [->|H']; [left; reflexivity|right; right; exact H'].
    + intros [<-|H]; [left; reflexivity|right; exact H].
Qed.

Lemma sort_desc_In y l : In y (sort_desc l) -> In y l.
Proof.
  induction l as [|x l IH]; simpl; [tauto|].
  intros H. apply insert_desc_In in H. destruct H as [->|H]; [left; reflexivity|].
  right. exact (IH H).
Qed.

Lemma class_dets_inv c d :
  In d (class_dets boxes scores nms_thr score_thr c) ->
  det_cls d = c /\ score_thr < det_score d /\
  In (det_box d, det_score d) (combine boxes (map (fun row => nth c row 0) scores)).
Proof.
  unfold class_dets. intros H. apply in_map_iff in H.
  destruct H as [[b s] [<- H]]. simpl.
  apply greedy_nms_incl, sort_desc_In in H.
  unfold class_candidates in H. apply filter_In in H. destruct H as [Hin Hs].
  simpl in Hs. apply Qltb_lt in Hs. auto.
Qed.

Lemma class_compatible_sym d1 d2 :
  class_compatible nms_thr d1 d2 -> class_compatible nms_thr d2 d1.
Proof.
  unfold class_compatible. intros H Hc. apply compatible_sym. apply H. congruence.
Qed.

Lemma class_dets_pairs c :
  ForallOrdPairs (class_compatible nms_thr) (class_dets boxes scores nms_thr score_thr c).
Proof.
  unfold class_dets. apply FOP_map.
  eapply FOP_impl; [|apply greedy_nms_pairs].
  intros a b H _. exact H.
Qed.

Lemma flat_map_class_dets_cls cs d :
  In d (flat_map (class_dets boxes scores nms_thr score_thr) cs) -> In (det_cls d) cs.
Proof.
  intros H. apply in_flat_map in H. destruct H as [c [Hc Hd]].
  apply class_dets_inv in Hd. destruct Hd as [-> _]. exact Hc.
Qed.

Lemma flat_map_class_dets_pairs cs :
  List.NoDup cs ->
  ForallOrdPairs (class_compatible nms_thr)
    (flat_map (class_dets boxes scores nms_thr score_thr) cs).
Proof.
  induction 1 as [|c cs Hc Hnd IH]; simpl; [constructor|].
  apply FOP_app; [apply class_dets_pairs|exact IH|].
  intros a b Ha Hb Heq. exfalso. apply Hc.
  apply class_dets_inv in Ha. destruct Ha as [Ha _].
  apply flat_map_class_dets_cls in Hb. congruence.
Qed.

Lemma multiclass_nms_Some dets :
  multiclass_nms boxes scores nms_thr score_thr = Some dets ->
  dets = flat_map (class_dets boxes scores nms_thr score_thr) (seq 0 (num_classes scores)).
Proof.
  unfold multiclass_nms.
  destruct (flat_map _ _); [discriminate|]. intros H. injection H as <-. reflexivity.
Qed.

End Multiclass.

(** C1. Among the detections that [multiclass_nms] returns, two distinct
    ones of the same class never overlap with an IoU greater than the
    IoU threshold; this holds for every candidate set and every pair of
    thresholds, in particular for 0.45 and 0.3 as [infer_image] and
    [infer_camera] call it. *)
Theorem multiclass_nms_no_same_class_overlap
    (boxes : list Box) (scores : list (list Q)) (nms_thr score_thr : Q)
    (dets : list Detection) (i j : nat) (d1 d2 : Detection) :
  multiclass_nms boxes scores nms_thr score_thr = Some dets ->
  i <> j -> dets !! i = Some d1 -> dets !! j = Some d2 ->
  det_cls d1 = det_cls d2 ->
  ~ nms_thr < iou (det_box d1) (det_box d2).
Proof.
  intros Hd Hij Hi Hj Hc. apply multiclass_nms_Some in Hd.
  pose proof (flat_map_class_dets_pairs boxes scores nms_thr score_thr
                (seq 0 (num_classes scores)) (List.seq_NoDup _ _)) as Hp.
  rewrite <- Hd in Hp.
  exact (FOP_lookup (class_compatible nms_thr) dets i j d1 d2
           (class_compatible_sym nms_thr) Hp Hij Hi Hj Hc).
Qed.

Lemma multiclass_nms_no_same_class_overlap_witness :
  multiclass_nms Samples.boxes3 Samples.scores3 Driver.nms_thr Driver.score_thr
    = Some Samples.dets3 /\
  ~ Driver.nms_thr < iou Samples.box_a Samples.box_c.
Proof.
  split; [reflexivity|].
  apply (multiclass_nms_no_same_class_overlap Samples.boxes3 Samples.scores3
           Driver.nms_thr Driver.score_thr Samples.dets3 0 1
           (mkDet Samples.box_a (9 # 10) 0) (mkDet Samples.box_c (7 # 10) 0)).
  - reflexivity.
  - discriminate.
  - reflexivity.
  - reflexivity.
  - reflexivity.
Defined.

(** C3. Every detection that [multiclass_nms] returns has a score greater
    than or equal to the score threshold, whatever the candidate set and
    the thresholds are (0.3 in the default pipeline). *)
Theorem multiclass_nms_score_ge_threshold
    (boxes : list Box) (scores : list (list Q)) (nms_thr score_thr : Q)
    (dets : list Detection) (d : Detection) :
  multiclass_nms boxes scores nms_thr score_thr = Some dets ->
  In d dets ->
  score_thr <= det_score d.
Proof.
  intros Hd Hin. apply multiclass_nms_Some in Hd. subst dets.
  apply in_flat_map in Hin. destruct Hin as [c [_ Hin]].
  apply class_dets_inv in Hin. destruct Hin as (_ & Hs & _).
  apply Qlt_le_weak. exact Hs.
Qed.

Lemma multiclass_nms_score_ge_threshold_witness :
  Driver.score_thr <= 5 # 10.
Proof.
  apply (multiclass_nms_score_ge_threshold Samples.boxes3 Samples.scores3
           Driver.nms_thr Driver.score_thr Samples.dets3
           (mkDet Samples.box_b (5 # 10) 1)).
  - reflexivity.
  - right. right. left. reflexivity.
Defined.

(** ** No candidate above the score threshold *)





(** ** One image through the pipeline *)

Lemma lookup_snoc {A} (l : list A) (x : A) : (l ++ [x]) !! length l = Some x.
Proof. apply list_lookup_middle. reflexivity. Qed.

Lemma insert_snoc {A} (l : list A) (x y : A) : <[length l := y]> (l ++ [x]) = l ++ [y].
Proof. rewrite insert_app_r_alt by lia. rewrite Nat.sub_diag. reflexivity. Qed.

Lemma World_ext (w1 w2 : World) :
  fs w1 = fs w2 -> refuse w1 = refuse w2 -> dirs w1 = dirs w2 -> heap w1 = heap w2 ->
  gpu_proc w1 = gpu_proc w2 -> tick w1 = tick w2 -> trace w1 = trace w2 -> w1 = w2.
Proof. destruct w1, w2; simpl; intros; subst; reflexivity. Qed.

(** Equality of an outcome and world with an explicit one, field by
    field. *)
Ltac world_eq :=
  unfold ret; apply (f_equal2 pair); [reflexivity|];
  apply World_ext; simpl; rewrite <- ?app_assoc; reflexivity.

Lemma infer_image_outcome E model_name input_path output_path shape d_type w pixels
    boxes scores :
  fs w !! input_path = Some (ImageFile pixels) ->
  candidates_of E model_name shape d_type pixels = Some (boxes, scores) ->
  infer_image E model_name input_path output_path shape d_type w =
    (batch_outcome E (path_join output_path (basename input_path)) w,
     batch_world E model_name input_path (path_join output_path (basename input_path))
       pixels (multiclass_nms boxes scores nms_thr score_thr) w).
Proof.
  intros Hfs Hc. unfold candidates_of in Hc.
  unfold infer_image, bind, time_time, cv2_imread, emit, bind. simpl.
  rewrite Hfs. simpl. rewrite lookup_snoc. simpl.
  destruct (preprocess E pixels shape) as [img ratio].
  unfold client_infer, bind, emit. simpl.
  destruct (server_infer E model_name (astype E d_type img)) as [out|]; [|discriminate Hc].
  unfold decode in Hc. injection Hc as Hb Hs. subst boxes scores. unfold ret at 1. simpl.
  unfold batch_outcome, batch_world, batch_buffers, durations.
  destruct (multiclass_nms _ _ nms_thr score_thr) as [dets|].
  - unfold vis_dets, vis, bind, emit, deref. simpl. rewrite lookup_snoc. simpl.
    destruct (vis_copies E); simpl.
    + unfold cv2_imwrite, bind, deref, emit. simpl.
      rewrite (lookup_snoc (heap w ++ [pixels])). simpl.
      destruct (cv2_encoder E _) as [c|]; simpl; [|unfold raise; world_eq].
      destruct (refuse w !! _) eqn:Hr; world_eq.
    + unfold cv2_imwrite, bind, deref, emit. simpl. rewrite insert_snoc, lookup_snoc. simpl.
      destruct (cv2_encoder E _) as [c|]; simpl; [|unfold raise; world_eq].
      destruct (refuse w !! _) eqn:Hr; world_eq.
  - unfold ret at 1.
    unfold cv2_imwrite, bind, deref, emit. simpl. rewrite lookup_snoc. simpl.
    destruct (cv2_encoder E _) as [c|]; simpl; [|unfold raise; world_eq].
    destruct (refuse w !! _) eqn:Hr; world_eq.
Qed.

(** With an encoder for the output name the call returns. *)
Lemma infer_image_run E model_name input_path output_path shape d_type w pixels boxes scores c :
  fs w !! input_path = Some (ImageFile pixels) ->
  candidates_of E model_name shape d_type pixels = Some (boxes, scores) ->
  cv2_encoder E (path_join output_path (basename input_path)) = Some c ->
  infer_image E model_name input_path output_path shape d_type w =
    (Ok (durations E (tick w)),
     batch_world E model_name input_path (path_join output_path (basename input_path))
       pixels (multiclass_nms boxes scores nms_thr score_thr) w).
Proof.
  intros Hfs Hc Henc.
  rewrite (infer_image_outcome E model_name input_path output_path shape d_type w
             pixels boxes scores Hfs Hc).
  unfold batch_outcome. rewrite Henc. reflexivity.
Qed.

Lemma infer_camera_run E model_name input shape d_type w frame boxes scores :
  heap w !! input = Some frame ->
  candidates_of E model_name shape d_type frame = Some (boxes, scores) ->
  infer_camera E model_name input shape d_type w =
    (Ok (cam_output E input (multiclass_nms boxes scores nms_thr score_thr) w),
     cam_world E model_name input frame (multiclass_nms boxes scores nms_thr score_thr) w).
Proof.
  intros Hin Hc. unfold candidates_of in Hc.
  unfold infer_camera, bind. unfold deref at 1. rewrite Hin. simpl.
  destruct (preprocess E frame shape) as [img ratio].
  unfold client_infer, bind, emit. simpl.
  destruct (server_infer E model_name (astype E d_type img)) as [out|]; [|discriminate Hc].
  unfold decode in Hc. injection Hc as Hb Hs. subst boxes scores. unfold ret at 1. simpl.
  unfold copy_copy, bind, deref. simpl. rewrite Hin. simpl.
  unfold cam_output, cam_world.
  destruct (multiclass_nms _ _ nms_thr score_thr) as [dets|].
  - unfold vis_dets, vis, bind, emit, deref. simpl.
    rewrite (lookup_app_l_Some _ _ _ _ Hin). simpl.
    destruct (vis_copies E).
    + rewrite length_app, Nat.add_1_r. world_eq.
    + world_eq.
  - world_eq.
Qed.




(** ** Where the drawing lands *)

(** C5, as stated, does not hold: the two modes do not differ in where
    the drawing lands.  Both hand the buffer they hold to [vis] itself.
    If [vis] draws in place, batch mode does not draw on a copy: the
    loaded buffer holds the drawing after [infer_image].  If [vis]
    returns a new buffer, camera mode does not draw in place: the
    captured frame is as it was after [infer_camera]. *)
Lemma no_copy_in_batch_or_no_drawing_in_place :
  ~ copy_in_batch_in_place_in_camera Samples.env /\
  ~ copy_in_batch_in_place_in_camera Samples.env_copying.
Proof.
  split.
  - intros [H _].
    specialize (H "yolox"%string "data/a.png"%string "./output/test"%string
                  Samples.shape416 FP32 Samples.world Samples.img_hit).
    destruct (infer_image Samples.env "yolox" "data/a.png" "./output/test"
                Samples.shape416 FP32 Samples.world) as [r w'] eqn:Hrun.
    vm_compute in Hrun. injection Hrun as <- <-.
    specialize (H _ _ eq_refl eq_refl). vm_compute in H. discriminate H.
  - intros [_ H].
    specialize (H "yolox"%string 0%nat Samples.shape416 FP32
                  (Samples.world_with Samples.img_hit) Samples.img_hit
                  [mkBox (0 # 2) (0 # 2) (20 # 2) (20 # 2)] [[1; 0]]
                  [mkDet (mkBox (0 # 2) (0 # 2) (20 # 2) (20 # 2)) 1 0]).
    destruct (infer_camera Samples.env_copying "yolox" 0 Samples.shape416 FP32
                (Samples.world_with Samples.img_hit)) as [r w'] eqn:Hrun.
    vm_compute in Hrun. injection Hrun as <- <-.
    specialize (H _ _ eq_refl eq_refl eq_refl eq_refl). vm_compute in H. discriminate H.
Qed.

(** C5, amended. With detections, both modes call [vis] on the buffer
    they hold, with the fixed threshold 0.3 and without copying it
    first, and pass on the picture [vis] returns.  Batch mode calls it
    on the buffer made by [cv2.imread] and hands the picture to
    [cv2.imwrite]; when the output name has an encoder the call returns,
    and an output path that is not refused holds what the encoder makes
    of the picture.  Camera mode, for the shape its request is declared
    with, calls it on the captured frame and returns the picture; the
    copy it made with [copy.copy] holds the frame's pixels and is not
    returned.  Whether the buffer handed to [vis] holds the drawing
    afterwards is the doing of [vis] alone, and the same in both
    modes. *)
Theorem both_modes_hand_vis_the_buffer_they_hold
    (E : Env) (model_name : string) (shape : list Z) (d_type : dtype)
    (boxes : list Box) (scores : list (list Q)) (dets : list Detection) :
  multiclass_nms boxes scores nms_thr score_thr = Some dets ->
  (forall (input_path output_path : string) (w : World) (pixels : Image) (c : codec),
      fs w !! input_path = Some (ImageFile pixels) ->
      candidates_of E model_name shape d_type pixels = Some (boxes, scores) ->
      let out := path_join output_path (basename input_path) in
      cv2_encoder E out = Some c ->
      exists times w',
        infer_image E model_name input_path output_path shape d_type w = (Ok times, w') /\
        trace w' = trace w ++ [EvImread input_path; EvInfer model_name;
                               EvVis (length (heap w)) (3 # 10);
                               EvImwrite out (drawn E pixels dets)] /\
        heap w' !! length (heap w)
          = Some (if vis_copies E then pixels else drawn E pixels dets) /\
        (refuse w !! out = None ->
           fs w' !! out = Some (ImageFile (stored E c out (drawn E pixels dets))))) /\
  (request_shape_fits shape ->
   forall (input : nat) (w : World) (frame : Image),
      heap w !! input = Some frame ->
      candidates_of E model_name shape d_type frame = Some (boxes, scores) ->
      exists output w',
        infer_camera E model_name input shape d_type w = (Ok output, w') /\
        trace w' = trace w ++ [EvInfer model_name; EvVis input (3 # 10)] /\
        heap w' !! output = Some (drawn E frame dets) /\
        heap w' !! input
          = Some (if vis_copies E then frame else drawn E frame dets) /\
        heap w' !! length (heap w) = Some frame /\
        output <> length (heap w)).
Proof.
  intros Hd. split.
  - intros input_path output_path w pixels c Hfs Hc out Henc.
    pose proof (infer_image_run E model_name input_path output_path shape d_type w
                  pixels boxes scores c Hfs Hc Henc) as Hrun.
    rewrite Hd in Hrun. eexists. eexists. split; [exact Hrun|].
    unfold batch_world, batch_buffers. cbn [trace fs heap pictured vis_events].
    fold out. rewrite Henc. split; [reflexivity|]. split.
    + destruct (vis_copies E).
      * apply list_lookup_middle. reflexivity.
      * apply lookup_snoc.
    + intros Hr. rewrite Hr. apply lookup_insert_eq.
  - intros _ input w frame Hin Hc.
    pose proof (infer_camera_run E model_name input shape d_type w frame boxes scores
                  Hin Hc) as Hrun.
    rewrite Hd in Hrun. eexists. eexists. split; [exact Hrun|].
    pose proof (lookup_lt_Some _ _ _ Hin) as Hlt.
    unfold cam_world, cam_output. cbn [trace heap vis_events].
    split; [reflexivity|].
    destruct (vis_copies E).
    + split; [|split; [|split]].
      * change (heap w ++ [frame; drawn E frame dets])
          with (heap w ++ [frame] ++ [drawn E frame dets]).
        rewrite app_assoc.
        replace (S (length (heap w))) with (length (heap w ++ [frame]))
          by (rewrite length_app; simpl; lia).
        apply lookup_snoc.
      * apply lookup_app_l_Some. exact Hin.
      * change (heap w ++ [frame; drawn E frame dets])
          with (heap w ++ [frame] ++ [drawn E frame dets]).
        rewrite app_assoc. apply lookup_app_l_Some, lookup_snoc.
      * lia.
    + assert (Hlen : (input < length (heap w ++ [frame]))%nat)
        by (rewrite length_app; simpl; lia).
      split; [apply list_lookup_insert_eq; exact Hlen|].
      split; [apply list_lookup_insert_eq; exact Hlen|].
      split; [|lia].
      rewrite list_lookup_insert_ne by lia. apply lookup_snoc.
Qed.

Lemma both_modes_hand_vis_the_buffer_they_hold_witness :
  (exists times w',
      infer_image Samples.env_copying "yolox" "data/a.png" "./output/test"
        Samples.shape416 FP32 Samples.world = (Ok times, w') /\
      heap w' !! 0%nat = Some Samples.img_hit /\
      fs w' !! "./output/test/a.png"%string
        = Some (ImageFile [[255; 255; 255; 255; 255; 255; 255]]%Z)) /\
  (exists output w',
      infer_camera Samples.env "yolox" 0 Samples.shape416 FP32
        (Samples.world_with Samples.img_hit) = (Ok output, w') /\
      trace w' = [EvInfer "yolox"; EvVis 0 (3 # 10)] /\
      heap w' !! output = Some [[255; 255; 255; 255; 255; 255; 255]]%Z).
Proof.
  split.
  - destruct (both_modes_hand_vis_the_buffer_they_hold Samples.env_copying "yolox"
                Samples.shape416 FP32
                [mkBox (0 # 2) (0 # 2) (20 # 2) (20 # 2)] [[1; 0]]
                [mkDet (mkBox (0 # 2) (0 # 2) (20 # 2) (20 # 2)) 1 0] eq_refl)
      as (Hbatch & _).
    destruct (Hbatch "data/a.png"%string "./output/test"%string Samples.world
                Samples.img_hit Lossless eq_refl eq_refl eq_refl)
      as (times & w' & Hrun & _ & Hheap & Hfs).
    exists times, w'. split; [exact Hrun|]. split; [exact Hheap|].
    exact (Hfs eq_refl).
  - destruct (both_modes_hand_vis_the_buffer_they_hold Samples.env "yolox"
                Samples.shape416 FP32
                [mkBox (0 # 2) (0 # 2) (20 # 2) (20 # 2)] [[1; 0]]
                [mkDet (mkBox (0 # 2) (0 # 2) (20 # 2) (20 # 2)) 1 0] eq_refl)
      as (_ & Hcam).
    destruct (Hcam eq_refl 0%nat (Samples.world_with Samples.img_hit) Samples.img_hit
                eq_refl eq_refl)
      as (output & w' & Hrun & Htr & Hout & _).
    exists output, w'. split; [exact Hrun|]. split; [exact Htr|exact Hout].
Defined.

(** ** The performance logger *)

Section Logger.

Variable E : Env.

Lemma log_run self image_index total_length p i q w :
  log self image_index total_length p i q w =
    (Ok (mkLogger (running self) (thread self) (time_records self ++ [(p, i, q)])
           (temp_gpu_log self) (gpu_log self) (time_log self)),
     set_trace (trace w ++ [EvPrint (PProgress image_index total_length p i q)]) w).
Proof. reflexivity. Qed.

Lemma log_each_run records : forall self total_length image_index w,
  exists self' w',
    log_each self total_length image_index records w = (Ok self', w') /\
    time_records self' = time_records self ++ records /\
    temp_gpu_log self' = temp_gpu_log self /\
    gpu_log self' = gpu_log self /\
    time_log self' = time_log self /\
    fs w' = fs w /\ refuse w' = refuse w.
Proof.
  induction records as [|[[p i] q] rest IH]; intros self total_length image_index w; simpl.
  - exists self, w. rewrite app_nil_r. unfold ret. auto 10.
  - unfold bind. rewrite log_run.
    destruct (IH (mkLogger (running self) (thread self) (time_records self ++ [(p, i, q)])
                    (temp_gpu_log self) (gpu_log self) (time_log self))
                 total_length (S image_index)
                 (set_trace (trace w ++ [EvPrint (PProgress image_index total_length p i q)]) w))
      as (self' & w' & Hrun & Hrec & Ht & Hg & Hl & Hfs & Hre).
    exists self', w'. split; [exact Hrun|]. simpl in *.
    rewrite Hrec, <- app_assoc. auto 10.
Qed.

(** [stop_logging] up to the removal of the temporary file. *)
Lemma stop_logging_removal_ok self w f :
  convert_log_to_csv E (temp_gpu_log self) (gpu_log self) (fs w) = inr f ->
  f !! temp_gpu_log self = None \/ refuse w !! temp_gpu_log self = None ->
  refuse w !! time_log self = None ->
  exists w',
    stop_logging E self w = (Ok (stopped self), w') /\
    fs w' = <[time_log self := CsvFile (time_log_rows self)]> (delete (temp_gpu_log self) f) /\
    (f !! temp_gpu_log self = None ->
       In (EvPrint (PStr (temp_gpu_log self +:+ " not exists"))) (trace w')).
Proof.
  intros Hconv Hrm Hw.
  unfold stop_logging, bind, terminate_proc, call_convert_log_to_csv, try_except,
    os_remove, write_file, print, emit, ret. simpl.
  destruct (gpu_proc w); simpl; rewrite Hconv; simpl.
  all: destruct (f !! temp_gpu_log self) eqn:Hf; simpl.
  all: try (destruct Hrm as [Hrm|Hrm]; [discriminate Hrm|]; rewrite Hrm; simpl).
  all: rewrite Hw; simpl; eexists; (split; [reflexivity|]); simpl.
  all: split; [try reflexivity|].
  all: try (intros Habs; discriminate Habs).
  all: try (rewrite delete_id by exact Hf; reflexivity).
  all: intros _; rewrite !in_app_iff; simpl; tauto.
Qed.

Lemma stop_logging_removal_raises self w f x e :
  convert_log_to_csv E (temp_gpu_log self) (gpu_log self) (fs w) = inr f ->
  f !! temp_gpu_log self = Some x ->
  refuse w !! temp_gpu_log self = Some e ->
  e <> FileNotFoundError ->
  exists w', stop_logging E self w = (Raise e, w') /\ fs w' = f.
Proof.
  intros Hconv Hf Hr He.
  unfold stop_logging, bind, terminate_proc, call_convert_log_to_csv, try_except,
    os_remove, write_file, print, emit, ret. simpl.
  destruct (gpu_proc w); simpl; rewrite Hconv; simpl; rewrite Hf, Hr; simpl.
  all: destruct (decide (e = FileNotFoundError)) as [Heq|_]; [contradiction|].
  all: eexists; split; reflexivity.
Qed.

End Logger.

(** C6. Starting from a logger with no record, [n] calls of [log] leave
    exactly the [n] records, in the order of the calls; [stop_logging]
    then writes a timing CSV of [n + 1] rows, the header row followed by
    those records in that order.  This is stated for every world in which
    the conversion of the GPU log returns, the temporary file is removable
    or absent, and the timing CSV may be written. *)
Theorem time_log_csv_is_header_then_records
    (E : Env) (self0 : PerformanceLogger) (records : list (Q * Q * Q))
    (total_length : nat) (w0 : World) :
  time_records self0 = [] ->
  exists self w1,
    log_each self0 total_length 1 records w0 = (Ok self, w1) /\
    time_records self = records /\
    forall (w : World) (f : gmap string file),
      convert_log_to_csv E (temp_gpu_log self) (gpu_log self) (fs w) = inr f ->
      f !! temp_gpu_log self = None \/ refuse w !! temp_gpu_log self = None ->
      refuse w !! time_log self = None ->
      exists self' w' rows,
        stop_logging E self w = (Ok self', w') /\
        fs w' !! time_log self = Some (CsvFile rows) /\
        rows = [CStr "Preprocessing_Time(ms)"; CStr "Inference_Time(ms)";
                CStr "Postprocessing_Time(ms)"] :: map record_row records /\
        length rows = S (length records).
Proof.
  intros H0.
  destruct (log_each_run records self0 total_length 1%nat w0)
    as (self & w1 & Hrun & Hrec & _).
  rewrite H0 in Hrec. simpl in Hrec.
  exists self, w1. split; [exact Hrun|]. split; [exact Hrec|].
  intros w f Hconv Hrm Hw.
  destruct (stop_logging_removal_ok E self w f Hconv Hrm Hw) as (w' & Hstop & Hfs & _).
  exists (stopped self), w', (time_log_rows self).
  split; [exact Hstop|]. split; [rewrite Hfs; apply lookup_insert_eq|].
  unfold time_log_rows. rewrite Hrec. split; [reflexivity|].
  simpl. rewrite length_map. reflexivity.
Qed.

Lemma time_log_csv_is_header_then_records_witness :
  exists self' w',
    stop_logging Samples.env
      (mkLogger true true Samples.records3 "./20240101_120000.txt"
         "./log/20240101_120000_gpu_log.csv" "./log/20240101_120000_time_log.csv")
      Samples.world = (Ok self', w') /\
    fs w' !! "./log/20240101_120000_time_log.csv"%string =
      Some (CsvFile
              [[CStr "Preprocessing_Time(ms)"; CStr "Inference_Time(ms)";
                CStr "Postprocessing_Time(ms)"];
               [CNum (12 # 10); CNum (85 # 10); CNum (31 # 10)];
               [CNum (11 # 10); CNum (80 # 10); CNum (30 # 10)];
               [CNum (13 # 10); CNum (90 # 10); CNum (29 # 10)]]).
Proof.
  destruct (time_log_csv_is_header_then_records Samples.env
              (mkLogger true true [] "./20240101_120000.txt"
                 "./log/20240101_120000_gpu_log.csv" "./log/20240101_120000_time_log.csv")
              Samples.records3 3 Samples.world eq_refl)
    as (self & w1 & Hrun & Hrec & Hstop).
  vm_compute in Hrun. injection Hrun as <- _.
  destruct (Hstop Samples.world
              (<["./log/20240101_120000_gpu_log.csv"%string :=
                   CsvFile [[CStr "Freq MHz"]; [CStr "300"]]]> Samples.files))
    as (self' & w' & rows & Hs & Hfs & Hrows & _).
  - reflexivity.
  - right. reflexivity.
  - reflexivity.
  - exists self', w'. split; [exact Hs|]. subst rows. exact Hfs.
Defined.

(** C8, as stated, does not hold: when the operating system refuses the
    removal with a [PermissionError], the error leaves [stop_logging]. *)
Lemma removal_permission_error_escapes :
  ~ removal_failure_swallowed Samples.env.
Proof.
  intros H.
  destruct (H (PerformanceLogger_init Samples.env) Samples.world_locked
              (set_fs (<["./log/20240101_120000_gpu_log.csv"%string :=
                           CsvFile [[CStr "Freq MHz"]; [CStr "300"]]]> Samples.files)
                 Samples.world_locked)
              (<["./log/20240101_120000_gpu_log.csv"%string :=
                   CsvFile [[CStr "Freq MHz"]; [CStr "300"]]]> Samples.files)
              PermissionError eq_refl eq_refl eq_refl) as (self' & w' & Hstop & _).
  vm_compute in Hstop. discriminate Hstop.
Qed.

(** C8, amended. Once the GPU log is converted, a removal of the
    temporary file that fails because the file is absent is caught: the
    message is printed, the timing CSV is written and [stop_logging]
    returns normally.  A removal that fails with any other error leaves
    [stop_logging] with that error, the file system being as the
    conversion left it. *)
Theorem only_missing_file_is_swallowed
    (E : Env) (self : PerformanceLogger) (w : World) (f : gmap string file) :
  convert_log_to_csv E (temp_gpu_log self) (gpu_log self) (fs w) = inr f ->
  (f !! temp_gpu_log self = None ->
   refuse w !! time_log self = None ->
   exists self' w',
     stop_logging E self w = (Ok self', w') /\
     In (EvPrint (PStr (temp_gpu_log self +:+ " not exists"))) (trace w') /\
     is_Some (fs w' !! time_log self)) /\
  (forall (x : file) (e : exn),
     f !! temp_gpu_log self = Some x ->
     refuse w !! temp_gpu_log self = Some e ->
     e <> FileNotFoundError ->
     exists w', stop_logging E self w = (Raise e, w') /\ fs w' = f).
Proof.
  intros Hconv. split.
  - intros Hf Hw.
    destruct (stop_logging_removal_ok E self w f Hconv (or_introl Hf) Hw)
      as (w' & Hstop & Hfs & Hmsg).
    exists (stopped self), w'. split; [exact Hstop|]. split; [exact (Hmsg Hf)|].
    rewrite Hfs, lookup_insert_eq. eauto.
  - intros x e Hf Hr He.
    exact (stop_logging_removal_raises E self w f x e Hconv Hf Hr He).
Qed.

Lemma only_missing_file_is_swallowed_witness :
  exists self' w',
    stop_logging Samples.env (PerformanceLogger_init Samples.env) Samples.world_no_temp
      = (Ok self', w') /\
    In (EvPrint (PStr "./20240101_120000.txt not exists")) (trace w') /\
    is_Some (fs w' !! "./log/20240101_120000_time_log.csv"%string).
Proof.
  destruct (only_missing_file_is_swallowed Samples.env
              (PerformanceLogger_init Samples.env) Samples.world_no_temp
              (<["./log/20240101_120000_gpu_log.csv"%string := CsvFile []]>
                 (delete "./20240101_120000.txt"%string Samples.files)))
    as (Hmissing & _).
  - reflexivity.
  - apply Hmissing; reflexivity.
Defined.

(** ** The entry point *)

Section Main.

Variable E : Env.


Lemma main_not_ready args fuel w shape :
  parse_input_shape E (input_shape args) w = (Ok shape, w) ->
  is_server_live E && is_server_ready E && is_model_ready E (model args) = false ->
  main E args fuel w =
    (Ok tt, set_trace (trace w ++ [EvPrint (PStr "Triton server or model is not ready.")]) w).
Proof.
  intros Hp Hc. unfold main, bind. rewrite Hp, Hc. reflexivity.
Qed.

Lemma main_batch args fuel w shape :
  parse_input_shape E (input_shape args) w = (Ok shape, w) ->
  is_server_live E && is_server_ready E && is_model_ready E (model args) = true ->
  infer_mode args = Img ->
  main E args fuel w =
    run_batch E args shape (PerformanceLogger_init E)
      (set_trace (trace w ++ [EvPrint (PMetadata (model args))]) w).
Proof.
  intros Hp Hc Hm. unfold main, bind at 1. rewrite Hp, Hc, Hm. reflexivity.
Qed.

End Main.

(** C4. When one of the liveness, readiness or model-readiness checks
    answers false, [main] prints the warning and returns normally; the
    warning is the only external call it makes, so no image is read, no
    inference is requested and the file system, log files included, is
    left as it was.  The command line is taken to carry an input shape
    that parses, since the shape is parsed before the checks. *)
Theorem server_not_ready_returns_early
    (E : Env) (args : Args) (fuel : nat) (w : World) (shape : list Z) :
  parse_input_shape E (input_shape args) w = (Ok shape, w) ->
  is_server_live E = false \/ is_server_ready E = false \/
    is_model_ready E (model args) = false ->
  exists w',
    main E args fuel w = (Ok tt, w') /\
    trace w' = trace w ++ [EvPrint (PStr "Triton server or model is not ready.")] /\
    fs w' = fs w /\ heap w' = heap w /\ gpu_proc w' = gpu_proc w.
Proof.
  intros Hp Hc. eexists. split.
  - apply (main_not_ready E args fuel w shape Hp).
    destruct Hc as [ -> | [ -> | -> ] ]; [reflexivity| |].
    + destruct (is_server_live E); reflexivity.
    + destruct (is_server_live E), (is_server_ready E); reflexivity.
  - simpl. auto.
Qed.

Lemma server_not_ready_returns_early_witness :
  exists w',
    main (Samples.env_of true true (fun _ => false)) (Samples.args_of "data" Img) 0
      Samples.world = (Ok tt, w') /\
    trace w' = [EvPrint (PStr "Triton server or model is not ready.")] /\
    fs w' = Samples.files.
Proof.
  destruct (server_not_ready_returns_early (Samples.env_of true true (fun _ => false))
              (Samples.args_of "data" Img) 0 Samples.world Samples.shape416)
    as (w' & Hrun & Htr & Hfs & _).
  - reflexivity.
  - right. right. reflexivity.
  - exists w'. split; [exact Hrun|]. split; [exact Htr|exact Hfs].
Defined.



(** ** What a batch run reads and writes *)

Section BatchTrace.

Variable E : Env.

Lemma infer_image_no_image model_name input_path output_path shape d_type w :
  (forall pixels, fs w !! input_path <> Some (ImageFile pixels)) ->
  infer_image E model_name input_path output_path shape d_type w =
    (Raise AttributeError,
     set_trace (trace w ++ [EvImread input_path]) (set_tick (S (tick w)) w)).
Proof.
  intros Hno. unfold infer_image, bind, time_time, cv2_imread, emit, bind. simpl.
  destruct (fs w !! input_path) as [[lines|rows|pixels]|] eqn:Hf; try reflexivity.
  exfalso. exact (Hno pixels eq_refl).
Qed.

Lemma infer_image_no_answer model_name input_path output_path shape d_type w pixels :
  fs w !! input_path = Some (ImageFile pixels) ->
  candidates_of E model_name shape d_type pixels = None ->
  exists w',
    infer_image E model_name input_path output_path shape d_type w =
      (Raise InferenceServerException, w') /\
    trace w' = trace w ++ [EvImread input_path; EvInfer model_name].
Proof.
  intros Hfs Hc. unfold candidates_of in Hc.
  unfold infer_image, bind, time_time, cv2_imread, emit, bind. simpl.
  rewrite Hfs. simpl. rewrite lookup_snoc. simpl.
  destruct (preprocess E pixels shape) as [img ratio].
  unfold client_infer, bind, emit. simpl.
  destruct (server_infer E model_name (astype E d_type img)) as [out|]; [discriminate Hc|].
  eexists. split; [reflexivity|]. simpl. rewrite <- app_assoc. reflexivity.
Qed.

(** Whatever its outcome, one call of [infer_image] reads the one path
    it is given, and writes at most the one output path; it writes it
    when it returns. *)
Lemma infer_image_events model_name input_path output_path shape d_type w :
  exists evs,
    trace (infer_image E model_name input_path output_path shape d_type w).2
      = trace w ++ evs /\
    images_read evs = [input_path] /\
    images_written evs `prefix_of` [out_path output_path input_path] /\
    (forall times,
        (infer_image E model_name input_path output_path shape d_type w).1 = Ok times ->
        images_written evs = [out_path output_path input_path]).
Proof.
  destruct (fs w !! input_path) as [[lines|rows|pixels]|] eqn:Hf.
  1, 2, 4: rewrite infer_image_no_image by (intros px; congruence);
    exists [EvImread input_path]; simpl;
    (split; [reflexivity|]); (split; [reflexivity|]);
    (split; [apply prefix_nil|]); intros times Habs; discriminate Habs.
  destruct (candidates_of E model_name shape d_type pixels) as [[boxes scores]|] eqn:Hc.
  - rewrite (infer_image_outcome E model_name input_path output_path shape d_type w
               pixels boxes scores Hf Hc).
    cbn [fst snd]. unfold batch_world. cbn [trace]. eexists. split; [reflexivity|].
    unfold out_path. destruct (multiclass_nms boxes scores nms_thr score_thr); simpl; auto.
  - destruct (infer_image_no_answer model_name input_path output_path shape d_type w
                pixels Hf Hc) as (w' & Hrun & Htr).
    rewrite Hrun. simpl. exists [EvImread input_path; EvInfer model_name].
    split; [exact Htr|]. split; [reflexivity|]. split; [apply prefix_nil|].
    intros times Habs. discriminate Habs.
Qed.

End BatchTrace.

Section BatchLoop.

Variable E : Env.

Lemma batch_loop_events model_name output_path shape d_type total_length files :
  forall image_index totals logger w,
  exists evs,
    trace (batch_loop E model_name output_path shape d_type total_length image_index
             files totals logger w).2 = trace w ++ evs /\
    images_read evs `prefix_of` files /\
    images_written evs `prefix_of` map (out_path output_path) files /\
    (forall totals' logger',
        (batch_loop E model_name output_path shape d_type total_length image_index
           files totals logger w).1 = Ok (totals', logger') ->
        images_read evs = files /\
        images_written evs = map (out_path output_path) files /\
        length (time_records logger') = (length (time_records logger) + length files)%nat /\
        temp_gpu_log logger' = temp_gpu_log logger /\
        gpu_log logger' = gpu_log logger /\
        time_log logger' = time_log logger).
Proof.
  induction files as [|image_path rest IH]; intros image_index totals logger w.
  - exists []. simpl. rewrite app_nil_r, Nat.add_0_r.
    split; [reflexivity|]. split; [apply prefix_nil|]. split; [apply prefix_nil|].
    intros totals' logger' H. injection H as _ <-. auto 10.
  - destruct (infer_image_events E model_name image_path output_path shape d_type w)
      as (evs1 & Htr1 & Hrd1 & Hwr1 & Hok1).
    simpl. unfold bind.
    destruct (infer_image E model_name image_path output_path shape d_type w)
      as [[[[prep_time infer_time] postp_time]|e|] w1]; simpl in *.
    + destruct totals as [[total_prep total_infer] total_postp].
      match goal with
      | |- context [batch_loop E _ _ _ _ _ ?i rest ?t ?l ?w2] =>
          destruct (IH i t l w2) as (evs2 & Htr2 & Hrd2 & Hwr2 & Hok2)
      end.
      exists (evs1 ++ [EvPrint (PProgress image_index total_length
                                  prep_time infer_time postp_time)] ++ evs2).
      split; [rewrite Htr2; simpl; rewrite Htr1, <- !app_assoc; reflexivity|].
      unfold images_read, images_written in *. rewrite !flat_map_app. simpl.
      rewrite Hrd1, (Hok1 _ eq_refl). simpl.
      split; [apply prefix_cons; exact Hrd2|].
      split; [apply prefix_cons; exact Hwr2|].
      intros totals' logger' H. destruct (Hok2 totals' logger' H)
        as (Hr & Hw & Hlen & Ht & Hg & Hl).
      rewrite Hr, Hw, Hlen. simpl in *. rewrite length_app. simpl.
      split; [reflexivity|]. split; [reflexivity|]. split; [lia|]. auto.
    + exists evs1. split; [exact Htr1|]. rewrite Hrd1.
      split; [apply prefix_cons, prefix_nil|].
      split; [exact (prefix_app_r _ [out_path output_path image_path] _ Hwr1)|].
      intros totals' logger' H. discriminate H.
    + exists evs1. split; [exact Htr1|]. rewrite Hrd1.
      split; [apply prefix_cons, prefix_nil|].
      split; [exact (prefix_app_r _ [out_path output_path image_path] _ Hwr1)|].
      intros totals' logger' H. discriminate H.
Qed.

(** Closing the log reads and writes no image; when it returns, the
    timing CSV holds the header and the records. *)
Lemma stop_logging_events self w :
  exists evs,
    trace (stop_logging E self w).2 = trace w ++ evs /\
    images_read evs = [] /\ images_written evs = [] /\
    (forall self', (stop_logging E self w).1 = Ok self' ->
       fs (stop_logging E self w).2 !! time_log self = Some (CsvFile (time_log_rows self))).
Proof.
  unfold stop_logging, bind, terminate_proc, call_convert_log_to_csv, try_except,
    os_remove, write_file, print, emit, ret. simpl.
  destruct (gpu_proc w); simpl;
    destruct (convert_log_to_csv E (temp_gpu_log self) (gpu_log self) (fs w)) as [e|f]; simpl.
  all: try destruct (f !! temp_gpu_log self); simpl.
  all: try destruct (refuse w !! temp_gpu_log self) as [e'|]; simpl.
  all: try destruct (decide (e' = FileNotFoundError)); simpl.
  all: try destruct (refuse w !! time_log self) eqn:Hw; simpl.
  all: first
    [ exists []; split; [rewrite app_nil_r; reflexivity|]
    | eexists; split; [rewrite <- ?app_assoc; reflexivity|] ].
  all: split; [reflexivity|]; split; [reflexivity|].
  all: intros self' H; try discriminate H.
  all: apply lookup_insert_eq.
Qed.

End BatchLoop.

(** ** Which directory entries are taken *)

Lemma endswith_spec (s suffix : string) :
  endswith s suffix = true <-> exists stem, s = stem +:+ suffix.
Proof.
  induction s as [|c s IH].
  - change (endswith EmptyString suffix) with (String.eqb EmptyString suffix || false).
    rewrite orb_false_r, String.eqb_eq. split.
    + intros <-. exists EmptyString. reflexivity.
    + intros [[|c stem] H]; simpl in H; [exact H|discriminate H].
  - change (endswith (String c s) suffix)
      with (String.eqb (String c s) suffix || endswith s suffix).
    rewrite orb_true_iff, String.eqb_eq, IH. split.
    + intros [<-|[stem ->]].
      * exists EmptyString. reflexivity.
      * exists (String c stem). reflexivity.
    + intros [[|c' stem] H]; simpl in H.
      * left. exact H.
      * right. injection H as _ ->. exists stem. reflexivity.
Qed.

Lemma accepted_spec (f : string) :
  accepted f = true <->
  exists stem ext, In ext ["png"; "jpg"; "jpeg"]%string /\ lower f = stem +:+ ext.
Proof.
  unfold accepted, endswith_any, accepted_suffixes. rewrite existsb_exists. split.
  - intros (ext & Hin & He). apply endswith_spec in He. destruct He as [stem He].
    exists stem, ext. split; assumption.
  - intros (stem & ext & Hin & He). exists ext. split; [exact Hin|].
    apply endswith_spec. exists stem. exact He.
Qed.

Section BatchRun.

Variable E : Env.

Lemma run_batch_events args shape w names :
  dirs w !! image_dir args = Some names ->
  exists evs,
    trace (run_batch E args shape (PerformanceLogger_init E) w).2 = trace w ++ evs /\
    images_read evs `prefix_of` image_files_of (image_dir args) names /\
    images_written evs `prefix_of`
      map (out_path ("./output/" +:+ folder_name args)) (image_files_of (image_dir args) names) /\
    ((run_batch E args shape (PerformanceLogger_init E) w).1 = Ok tt ->
       images_read evs = image_files_of (image_dir args) names /\
       images_written evs =
         map (out_path ("./output/" +:+ folder_name args))
           (image_files_of (image_dir args) names) /\
       exists rows,
         fs (run_batch E args shape (PerformanceLogger_init E) w).2
            !! time_log (PerformanceLogger_init E) = Some (CsvFile rows) /\
         length rows = S (length (image_files_of (image_dir args) names))).
Proof.
  intros Hd.
  remember (run_batch E args shape (PerformanceLogger_init E) w) as r eqn:Hr.
  unfold run_batch, bind, emit, os_listdir, start_logging in Hr.
  cbn -[stop_logging batch_loop image_files_of] in Hr. rewrite Hd in Hr.
  cbn -[stop_logging batch_loop image_files_of] in Hr.
  remember (image_files_of (image_dir args) names) as files eqn:Hfiles. clear Hfiles.
  match type of Hr with
  | context [batch_loop E ?m ?o ?s ?d ?t ?i ?f ?tt ?l ?w2] =>
      destruct (batch_loop_events E m o s d t f i tt l w2) as (evsL & HtrL & HrdL & HwrL & HokL);
      destruct (batch_loop E m o s d t i f tt l w2) as [[[[[tp ti] tpp] lg]|e|] w3]
  end; simpl in HtrL.
  - specialize (HokL _ _ eq_refl). destruct HokL as (Hrd & Hwr & Hlen & _ & _ & Hl).
    unfold py_div in Hr. destruct files as [|image_path rest].
    + subst r. simpl. rewrite HtrL, <- !app_assoc. eexists. split; [reflexivity|].
      unfold images_read, images_written in *. simpl. rewrite !flat_map_app, Hrd, Hwr.
      split; [reflexivity|]. split; [reflexivity|]. intros H. discriminate H.
    + cbn -[stop_logging] in Hr.
      match type of Hr with
      | context [stop_logging E lg ?w4] =>
          destruct (stop_logging_events E lg w4) as (evsS & HtrS & HrdS & HwrS & HokS);
          destruct (stop_logging E lg w4) as [[lg'|e|] w5]
      end; simpl in HtrS; subst r; simpl; rewrite HtrS, HtrL, <- !app_assoc;
        (eexists; split; [reflexivity|]);
        unfold images_read, images_written in *; simpl; rewrite !flat_map_app; simpl;
        rewrite HrdS, HwrS, Hrd, Hwr, !app_nil_r.
      * split; [reflexivity|]. split; [reflexivity|]. intros _.
        split; [reflexivity|]. split; [reflexivity|].
        exists (time_log_rows lg). split.
        -- simpl in Hl. rewrite <- Hl. exact (HokS _ eq_refl).
        -- unfold time_log_rows. simpl. rewrite length_map, Hlen. reflexivity.
      * split; [reflexivity|]. split; [reflexivity|]. intros H. discriminate H.
      * split; [reflexivity|]. split; [reflexivity|]. intros H. discriminate H.
  - subst r. simpl. rewrite HtrL, <- !app_assoc. eexists. split; [reflexivity|].
    unfold images_read, images_written in *. simpl.
    split; [exact HrdL|]. split; [exact HwrL|]. intros H. discriminate H.
  - subst r. simpl. rewrite HtrL, <- !app_assoc. eexists. split; [reflexivity|].
    unfold images_read, images_written in *. simpl.
    split; [exact HrdL|]. split; [exact HwrL|]. intros H. discriminate H.
Qed.

End BatchRun.

(** C10. A directory entry is taken exactly when its lower-cased name
    ends with "png", "jpg" or "jpeg".  A batch run reads images only at
    the paths of the taken entries, in the order of the listing, and
    writes pictures only for them; when the run returns, it has read and
    written one image for each taken entry and the timing CSV holds the
    header and one row for each of them.  The other entries give rise to
    no read, no output image and no timing record. *)
Theorem batch_mode_takes_exactly_accepted_entries
    (E : Env) (args : Args) (fuel : nat) (w : World) (shape : list Z)
    (names : list string) :
  parse_input_shape E (input_shape args) w = (Ok shape, w) ->
  is_server_live E && is_server_ready E && is_model_ready E (model args) = true ->
  infer_mode args = Img ->
  dirs w !! image_dir args = Some names ->
  let taken := List.filter accepted names in
  let files := map (path_join (image_dir args)) taken in
  let out := ("./output/" +:+ folder_name args)%string in
  (forall f, accepted f = true <->
             exists stem ext, In ext ["png"; "jpg"; "jpeg"]%string /\
                              lower f = stem +:+ ext) /\
  exists evs,
    trace (main E args fuel w).2 = trace w ++ evs /\
    images_read evs `prefix_of` files /\
    images_written evs `prefix_of` map (out_path out) files /\
    ((main E args fuel w).1 = Ok tt ->
       images_read evs = files /\
       images_written evs = map (out_path out) files /\
       exists rows,
         fs (main E args fuel w).2 !! time_log (PerformanceLogger_init E)
           = Some (CsvFile rows) /\
         length rows = S (length taken)).
Proof.
  intros Hp Hc Hm Hd taken files out. split; [exact accepted_spec|].
  rewrite (main_batch E args fuel w shape Hp Hc Hm).
  destruct (run_batch_events E args shape
              (set_trace (trace w ++ [EvPrint (PMetadata (model args))]) w) names Hd)
    as (evs & Htr & Hrd & Hwr & Hok).
  exists (EvPrint (PMetadata (model args)) :: evs).
  split; [rewrite Htr; simpl; rewrite <- app_assoc; reflexivity|].
  split; [exact Hrd|]. split; [exact Hwr|].
  intros Hret. destruct (Hok Hret) as (Hr & Hw & rows & Hfs & Hlen).
  split; [exact Hr|]. split; [exact Hw|]. exists rows. split; [exact Hfs|].
  rewrite Hlen. unfold image_files_of. rewrite length_map. reflexivity.
Qed.

Lemma batch_mode_takes_exactly_accepted_entries_witness :
  exists evs,
    trace (main Samples.env (Samples.args_of "data" Img) 0 Samples.world).2 = evs /\
    images_read evs = ["data/a.png"; "data/b.JPG"]%string /\
    images_written evs = ["./output/test/a.png"; "./output/test/b.JPG"]%string.
Proof.
  destruct (batch_mode_takes_exactly_accepted_entries Samples.env
              (Samples.args_of "data" Img) 0 Samples.world Samples.shape416
              ["a.png"; "notes.txt"; "b.JPG"]%string)
    as (_ & evs & Htr & _ & _ & Hok).
  - reflexivity.
  - reflexivity.
  - reflexivity.
  - reflexivity.
  - exists evs. split; [exact Htr|].
    destruct Hok as (Hr & Hw & _); [reflexivity|].
    split; [exact Hr|exact Hw].
Defined.

(** ** Descaling *)




(** ** Camera mode *)

Section CameraMode.

Variable E : Env.

Lemma forallb_app_true {A} (f : A -> bool) (l1 l2 : list A) :
  forallb f l1 = true -> forallb f l2 = true -> forallb f (l1 ++ l2) = true.
Proof. intros H1 H2. rewrite forallb_app, H1, H2. reflexivity. Qed.

(** Whatever its outcome, [infer_camera] leaves files, subprocess and
    clock alone, and calls only the server and [vis]. *)
Lemma infer_camera_frame model_name input shape d_type w :
  exists evs,
    trace (infer_camera E model_name input shape d_type w).2 = trace w ++ evs /\
    forallb camera_event evs = true /\ shown evs = [] /\
    fs (infer_camera E model_name input shape d_type w).2 = fs w /\
    gpu_proc (infer_camera E model_name input shape d_type w).2 = gpu_proc w /\
    tick (infer_camera E model_name input shape d_type w).2 = tick w.
Proof.
  unfold infer_camera, bind, deref. simpl.
  destruct (preprocess E (default [] (heap w !! input)) shape) as [img ratio].
  unfold client_infer, bind, emit. simpl.
  destruct (server_infer E model_name (astype E d_type img)) as [out|]; simpl.
  - unfold copy_copy, bind, deref. simpl.
    destruct (multiclass_nms _ _ nms_thr score_thr) as [dets|]; simpl.
    + unfold vis_dets, vis, bind, emit, deref. simpl.
      exists [EvInfer model_name; EvVis input conf].
      destruct (vis_copies E); simpl; rewrite <- app_assoc; auto 10.
    + exists [EvInfer model_name]. auto 10.
  - exists [EvInfer model_name]. auto 10.
Qed.





(** Whatever happens, the camera loop leaves the files, the subprocess
    and the clock alone. *)
Lemma cam_loop_frame model_name shape d_type fuel :
  forall k w,
  exists evs,
    trace (cam_loop E model_name shape d_type fuel k w).2 = trace w ++ evs /\
    forallb camera_event evs = true /\
    fs (cam_loop E model_name shape d_type fuel k w).2 = fs w /\
    gpu_proc (cam_loop E model_name shape d_type fuel k w).2 = gpu_proc w /\
    tick (cam_loop E model_name shape d_type fuel k w).2 = tick w.
Proof.
  induction fuel as [|fuel IH]; intros k w.
  - exists []. simpl. rewrite app_nil_r. auto.
  - remember (cam_loop E model_name shape d_type (S fuel) k w) as r eqn:Hr.
    cbn [cam_loop] in Hr. unfold bind at 1 in Hr.
    unfold get_video_from_pipeline at 1 in Hr. unfold bind at 1 in Hr.
    destruct (infer_camera_frame model_name (length (heap w)) shape d_type
                (set_heap (heap w ++ [camera E k]) w))
      as (evs1 & Htr1 & Hev1 & _ & Hfs1 & Hgp1 & Htk1).
    destruct (infer_camera E model_name (length (heap w)) shape d_type
                (set_heap (heap w ++ [camera E k]) w)) as [[output|e|] w1];
      simpl in Htr1, Hfs1, Hgp1, Htk1.
    + unfold bind at 1 in Hr. unfold emit at 1 in Hr.
      destruct (quit_key (wait_key E k)).
      * subst r. unfold emit. simpl. rewrite Htr1, <- !app_assoc.
        eexists. split; [reflexivity|].
        split; [apply forallb_app_true; [exact Hev1|reflexivity]|]. auto.
      * match type of Hr with
        | context [cam_loop E _ _ _ fuel (S k) ?w2] =>
            destruct (IH (S k) w2) as (evs2 & Htr2 & Hev2 & Hfs2 & Hgp2 & Htk2)
        end.
        subst r. rewrite Htr2, Hfs2, Hgp2, Htk2. simpl. rewrite Htr1, <- !app_assoc.
        eexists. split; [reflexivity|].
        split; [|auto].
        apply forallb_app_true; [exact Hev1|]. simpl. exact Hev2.
    + subst r. exists evs1. simpl. auto.
    + subst r. exists evs1. simpl. auto.
Qed.

End CameraMode.

Lemma main_camera (E : Env) args fuel w shape :
  parse_input_shape E (input_shape args) w = (Ok shape, w) ->
  is_server_live E && is_server_ready E && is_model_ready E (model args) = true ->
  infer_mode args = Cam ->
  main E args fuel w =
    cam_loop E (model args) shape (data_type args) fuel 0
      (set_trace (trace w ++ [EvPrint (PMetadata (model args))]) w).
Proof.
  intros Hp Hc Hm. unfold main, bind at 1. rewrite Hp, Hc, Hm. reflexivity.
Qed.

(** X1. The camera loop reads the key code modulo 256: a round ends the
    loop exactly when the low byte of the code is 113 (the letter q) or
    27 (escape).  A code of -1, which reports that no key was pressed,
    has low byte 255 and does not end it. *)
Theorem quit_key_low_byte (key : Z) :
  quit_key key = true <-> (key mod 256 = 113 \/ key mod 256 = 27)%Z.
Proof.
  unfold quit_key. change 255%Z with (Z.ones 8).
  rewrite Z.land_ones by lia. change (2 ^ 8)%Z with 256%Z.
  rewrite orb_true_iff, !Z.eqb_eq. reflexivity.
Qed.





(** X4. Camera mode, whatever its outcome, makes no call besides the
    metadata line, inference requests, drawing and the window: it reads
    and writes no file, starts no sampler, prints no timing and never
    reads the clock; file system and subprocess are as they were. *)
Theorem camera_mode_touches_no_file
    (E : Env) (args : Args) (fuel : nat) (w : World) (shape : list Z) :
  parse_input_shape E (input_shape args) w = (Ok shape, w) ->
  is_server_live E && is_server_ready E && is_model_ready E (model args) = true ->
  infer_mode args = Cam ->
  exists evs,
    trace (main E args fuel w).2 = trace w ++ evs /\
    forallb camera_event evs = true /\
    fs (main E args fuel w).2 = fs w /\
    gpu_proc (main E args fuel w).2 = gpu_proc w /\
    tick (main E args fuel w).2 = tick w.
Proof.
  intros Hp Hc Hm. rewrite (main_camera E args fuel w shape Hp Hc Hm).
  destruct (cam_loop_frame E (model args) shape (data_type args) fuel 0%nat
              (set_trace (trace w ++ [EvPrint (PMetadata (model args))]) w))
    as (evs & Htr & Hev & Hfs & Hgp & Htk).
  exists (EvPrint (PMetadata (model args)) :: evs).
  simpl in Htr. rewrite Htr, <- app_assoc. split; [reflexivity|].
  split; [exact Hev|]. auto.
Qed.

Lemma camera_mode_touches_no_file_witness :
  fs (main Samples.env (Samples.args_of "data" Cam) 3 Samples.world).2 = Samples.files.
Proof.
  destruct (camera_mode_touches_no_file Samples.env (Samples.args_of "data" Cam) 3
              Samples.world Samples.shape416) as (evs & _ & _ & Hfs & _).
  - reflexivity.
  - reflexivity.
  - reflexivity.
  - exact Hfs.
Defined.

(** ** Paths *)

Lemma has_slash_app (a b : string) :
  has_slash (a +:+ b) = has_slash a || has_slash b.
Proof.
  induction a as [|c a IH]; simpl; [reflexivity|].
  rewrite IH, orb_assoc. reflexivity.
Qed.

Lemma basename_after_slash (a f : string) :
  has_slash f = false -> basename (a +:+ String slash f) = f.
Proof.
  intros Hf. induction a as [|c a IH].
  - simpl. rewrite Hf. reflexivity.
  - change (basename (String c (a +:+ String slash f)) = f). cbn [basename].
    rewrite has_slash_app. cbn [has_slash]. rewrite Ascii.eqb_refl, orb_true_r.
    exact IH.
Qed.

Lemma basename_no_slash (f : string) : has_slash f = false -> basename f = f.
Proof.
  destruct f as [|c f]; [reflexivity|]. cbn [has_slash basename].
  intros H. apply orb_false_iff in H. destruct H as [Hc Hf]. rewrite Hf, Hc. reflexivity.
Qed.

Lemma no_slash_not_absolute (f : string) : has_slash f = false -> startswith_slash f = false.
Proof.
  destruct f as [|c f]; [reflexivity|]. cbn [has_slash startswith_slash].
  intros H. apply orb_false_iff in H. tauto.
Qed.

Lemma string_app_inj (a b c : string) : a +:+ b = a +:+ c -> b = c.
Proof.
  induction a as [|x a IH]; simpl; [tauto|]. intros H. injection H as H. exact (IH H).
Qed.

Lemma string_app_assoc (a b c : string) : (a +:+ b) +:+ c = a +:+ (b +:+ c).
Proof.
  induction a as [|x a IH]; [reflexivity|].
  change (String x ((a +:+ b) +:+ c) = String x (a +:+ (b +:+ c))). f_equal. exact IH.
Qed.

Lemma basename_path_join (dir f : string) :
  has_slash f = false -> basename (path_join dir f) = f.
Proof.
  intros Hf. unfold path_join. rewrite (no_slash_not_absolute f Hf).
  destruct (String.eqb dir EmptyString) eqn:He; simpl.
  - apply String.eqb_eq in He. subst dir. simpl. exact (basename_no_slash f Hf).
  - destruct (endswith dir (String slash EmptyString)) eqn:Hs.
    + apply endswith_spec in Hs. destruct Hs as [stem ->].
      rewrite string_app_assoc. simpl. exact (basename_after_slash stem f Hf).
    + exact (basename_after_slash dir f Hf).
Qed.

(** X5. The picture of a directory entry is written under the entry's
    own name: for a name without a slash, as [os.listdir] gives them, the
    output path of the image found at [dir/name] is [output_path/name],
    whatever the image directory is. *)
Theorem output_path_mirrors_entry_name (output_path dir f : string) :
  has_slash f = false ->
  out_path output_path (path_join dir f) = path_join output_path f.
Proof.
  intros Hf. unfold out_path. rewrite (basename_path_join dir f Hf). reflexivity.
Qed.

Lemma output_path_mirrors_entry_name_witness :
  out_path "./output/test" (path_join "data/" "a.png") = "./output/test/a.png"%string.
Proof.
  exact (output_path_mirrors_entry_name "./output/test" "data/" "a.png" eq_refl).
Defined.

Lemma path_join_inj (output_path f g : string) :
  has_slash f = false -> has_slash g = false ->
  path_join output_path f = path_join output_path g -> f = g.
Proof.
  intros Hf Hg. unfold path_join.
  rewrite (no_slash_not_absolute f Hf), (no_slash_not_absolute g Hg).
  destruct (String.eqb output_path EmptyString
            || endswith output_path (String slash EmptyString)); intros H.
  - exact (string_app_inj _ _ _ H).
  - apply string_app_inj in H. injection H as H. exact H.
Qed.

(** X6. Two different entries of the image directory never share an
    output file: for a listing without repetition, of names without
    slash, the output paths are pairwise different, so no picture of a
    run overwrites another. *)
Theorem output_paths_do_not_collide (output_path dir : string) (names : list string) :
  List.NoDup names ->
  (forall f, In f names -> has_slash f = false) ->
  List.NoDup (map (fun f => out_path output_path (path_join dir f)) names).
Proof.
  intros Hnd Hs. induction Hnd as [|f names Hf Hnd IH]; simpl; constructor.
  - intros Hin. apply in_map_iff in Hin. destruct Hin as (g & Heq & Hg).
    unfold out_path in Heq.
    rewrite !basename_path_join in Heq by (apply Hs; simpl; auto).
    apply path_join_inj in Heq; [|apply Hs; simpl; auto ..].
    subst g. exact (Hf Hg).
  - apply IH. intros g Hg. apply Hs. right. exact Hg.
Qed.

Lemma output_paths_do_not_collide_witness :
  List.NoDup (map (fun f => out_path "./output/test" (path_join "data" f))
                ["a.png"; "b.JPG"]%string).
Proof.
  apply (output_paths_do_not_collide "./output/test" "data" ["a.png"; "b.JPG"]%string).
  - constructor; [simpl; intros [H|[]]; discriminate H|].
    constructor; [simpl; tauto|constructor].
  - intros f [<-|[<-|[]]]; reflexivity.
Defined.

(** ** The input shape *)

Lemma split_comma_cons (s : string) : exists p ps, split_comma s = p :: ps.
Proof.
  destruct s as [|c s]; simpl; [eauto|].
  destruct (Ascii.eqb c comma); [eauto|]. destruct (split_comma s); eauto.
Qed.

Lemma join_comma_cons (p q : string) (ps : list string) :
  join_comma (p :: q :: ps) = p +:+ String comma (join_comma (q :: ps)).
Proof. reflexivity. Qed.

Lemma join_comma_push (c : ascii) (p : string) (ps : list string) :
  join_comma (String c p :: ps) = String c (join_comma (p :: ps)).
Proof. destruct ps as [|q ps]; reflexivity. Qed.

(** X7. Splitting the shape argument at commas loses nothing: joining
    the pieces with commas gives the argument back, no piece contains a
    comma, and there is one piece more than there are commas (so the
    empty argument gives one empty piece, not none). *)
Theorem split_comma_round_trip (s : string) :
  join_comma (split_comma s) = s /\
  Forall (fun p => count_commas p = O) (split_comma s) /\
  length (split_comma s) = S (count_commas s).
Proof.
  induction s as [|c s (Hj & Hn & Hl)]; simpl.
  - split; [reflexivity|]. split; [repeat constructor|reflexivity].
  - destruct (Ascii.eqb c comma) eqn:Hc.
    + apply Ascii.eqb_eq in Hc. subst c.
      destruct (split_comma_cons s) as (p & ps & Hs). rewrite Hs in *.
      split; [rewrite join_comma_cons, Hj; reflexivity|].
      split; [constructor; [reflexivity|exact Hn]|].
      simpl in *. rewrite Hl. reflexivity.
    + destruct (split_comma_cons s) as (p & ps & Hs). rewrite Hs in *.
      split; [rewrite join_comma_push, Hj; reflexivity|].
      split.
      * apply Forall_cons in Hn. destruct Hn as [Hp Hps].
        constructor; [simpl; rewrite Hc, Hp; reflexivity|exact Hps].
      * simpl in *. exact Hl.
Qed.

Lemma map_int_fails (E : Env) (pieces : list string) (p : string) (w : World) :
  In p pieces -> py_int E p = None -> map_int E pieces w = (Raise ValueError, w).
Proof.
  intros Hin Hp. induction pieces as [|q pieces IH]; [destruct Hin|].
  simpl. destruct (py_int E q) as [n|] eqn:Hq; [|reflexivity].
  destruct Hin as [->|Hin]; [congruence|].
  unfold bind. rewrite (IH Hin). reflexivity.
Qed.

(** X8. The shape argument is converted before the server is asked
    anything: when one of its comma-separated pieces is not an integer,
    [main] raises [ValueError] without a single external call, in either
    mode and whatever the state of the server. *)
Theorem bad_input_shape_raises_before_any_call
    (E : Env) (args : Args) (fuel : nat) (w : World) (p : string) :
  In p (split_comma (input_shape args)) ->
  py_int E p = None ->
  main E args fuel w = (Raise ValueError, w).
Proof.
  intros Hin Hp. unfold main, bind, parse_input_shape.
  rewrite (map_int_fails E _ p w Hin Hp). reflexivity.
Qed.

Lemma bad_input_shape_raises_before_any_call_witness :
  main Samples.env
    (mkArgs "localhost:9000" "yolox" "data" "test" Img "416,4x6" FP32) 0 Samples.world
    = (Raise ValueError, Samples.world).
Proof.
  apply (bad_input_shape_raises_before_any_call Samples.env
           (mkArgs "localhost:9000" "yolox" "data" "test" Img "416,4x6" FP32) 0
           Samples.world "4x6").
  - right. left. reflexivity.
  - reflexivity.
Defined.

(** ** Closing the log *)

Lemma string_length_app (a b : string) :
  String.length (a +:+ b) = (String.length a + String.length b)%nat.
Proof.
  induction a as [|c a IH]; [reflexivity|].
  change (S (String.length (a +:+ b)) = S (String.length a + String.length b)).
  rewrite IH. reflexivity.
Qed.

Lemma log_paths_differ (E : Env) :
  temp_gpu_log (PerformanceLogger_init E) <> gpu_log (PerformanceLogger_init E) /\
  temp_gpu_log (PerformanceLogger_init E) <> time_log (PerformanceLogger_init E) /\
  gpu_log (PerformanceLogger_init E) <> time_log (PerformanceLogger_init E).
Proof.
  unfold PerformanceLogger_init. cbn [temp_gpu_log gpu_log time_log].
  repeat split; intros H; apply (f_equal String.length) in H;
    rewrite !string_length_app in H; simpl in H; lia.
Qed.

(** X9. The three files of a logger never coincide: whatever the start
    time is, the raw GPU log, the GPU CSV and the timing CSV have
    pairwise different paths, so writing one cannot overwrite another. *)
Theorem log_files_are_distinct (E : Env) :
  let self := PerformanceLogger_init E in
  temp_gpu_log self <> gpu_log self /\
  temp_gpu_log self <> time_log self /\
  gpu_log self <> time_log self.
Proof.
  unfold PerformanceLogger_init. cbn [temp_gpu_log gpu_log time_log].
  repeat split; intros H; apply (f_equal String.length) in H;
    rewrite !string_length_app in H; simpl in H; lia.
Qed.

(** X10. When [stop_logging] returns, the raw GPU log is gone, the
    timing CSV holds the header and the records, and every other file,
    the converted GPU CSV among them, is as the conversion left it. *)
Theorem stop_logging_leaves_the_csv_files
    (E : Env) (is_running started : bool) (records : list (Q * Q * Q))
    (w : World) (f : gmap string file) :
  let init := PerformanceLogger_init E in
  let self := mkLogger is_running started records
                (temp_gpu_log init) (gpu_log init) (time_log init) in
  convert_log_to_csv E (temp_gpu_log self) (gpu_log self) (fs w) = inr f ->
  f !! temp_gpu_log self = None \/ refuse w !! temp_gpu_log self = None ->
  refuse w !! time_log self = None ->
  exists self' w',
    stop_logging E self w = (Ok self', w') /\
    running self' = false /\
    fs w' !! temp_gpu_log self = None /\
    fs w' !! time_log self = Some (CsvFile (time_log_header :: map record_row records)) /\
    fs w' !! gpu_log self = f !! gpu_log self /\
    (forall k, k <> temp_gpu_log self -> k <> time_log self -> fs w' !! k = f !! k).
Proof.
  intros init self Hconv Hrm Hw.
  destruct (log_paths_differ E) as (Htg & Htt & Hgt).
  destruct (stop_logging_removal_ok E self w f Hconv Hrm Hw) as (w' & Hstop & Hfs & _).
  exists (stopped self), w'. split; [exact Hstop|]. split; [reflexivity|].
  rewrite Hfs. split; [|split; [|split]].
  - rewrite lookup_insert_ne by (intros H; apply Htt; symmetry; exact H).
    apply lookup_delete_eq.
  - apply lookup_insert_eq.
  - rewrite lookup_insert_ne by (intros H; apply Hgt; symmetry; exact H).
    apply lookup_delete_ne. exact Htg.
  - intros k Hk1 Hk2. rewrite lookup_insert_ne by congruence.
    apply lookup_delete_ne. congruence.
Qed.

Lemma stop_logging_leaves_the_csv_files_witness :
  exists self' w',
    stop_logging Samples.env
      (mkLogger true true Samples.records3 "./20240101_120000.txt"
         "./log/20240101_120000_gpu_log.csv" "./log/20240101_120000_time_log.csv")
      Samples.world = (Ok self', w') /\
    fs w' !! "./20240101_120000.txt"%string = None /\
    fs w' !! "./log/20240101_120000_gpu_log.csv"%string
      = Some (CsvFile [[CStr "Freq MHz"]; [CStr "300"]]).
Proof.
  destruct (stop_logging_leaves_the_csv_files Samples.env true true Samples.records3
              Samples.world
              (<["./log/20240101_120000_gpu_log.csv"%string :=
                   CsvFile [[CStr "Freq MHz"]; [CStr "300"]]]> Samples.files))
    as (self' & w' & Hstop & _ & Htemp & _ & Hgpu & _).
  - reflexivity.
  - right. reflexivity.
  - reflexivity.
  - exists self', w'. split; [exact Hstop|]. split; [exact Htemp|].
    exact (eq_trans Hgpu eq_refl).
Defined.

(** X11. When the GPU log conversion raises, [stop_logging] raises the
    same error at once: it goes on neither to the removal of the raw log
    nor to the timing CSV, so past the conversion no file is changed and
    the records stay unsaved.  (A conversion that fails is taken to have
    left the files alone.) *)
Theorem conversion_failure_keeps_files
    (E : Env) (self : PerformanceLogger) (w : World) (e : exn) :
  convert_log_to_csv E (temp_gpu_log self) (gpu_log self) (fs w) = inl e ->
  exists w',
    stop_logging E self w = (Raise e, w') /\
    fs w' = fs w /\
    trace w' = trace w ++ (match gpu_proc w with Some _ => [EvTerminate] | None => [] end).
Proof.
  intros Hconv.
  unfold stop_logging, bind, terminate_proc, call_convert_log_to_csv, emit. simpl.
  destruct (gpu_proc w); simpl; rewrite Hconv; eexists; (split; [reflexivity|]); simpl.
  - auto.
  - rewrite app_nil_r. auto.
Qed.

Lemma conversion_failure_keeps_files_witness :
  exists w',
    stop_logging (with_convert Samples.env (fun _ _ _ => inl IsADirectoryError))
      (PerformanceLogger_init Samples.env) Samples.world = (Raise IsADirectoryError, w') /\
    fs w' = Samples.files.
Proof.
  destruct (conversion_failure_keeps_files
              (with_convert Samples.env (fun _ _ _ => inl IsADirectoryError))
              (PerformanceLogger_init Samples.env) Samples.world IsADirectoryError eq_refl)
    as (w' & Hstop & Hfs & _).
  exists w'. split; [exact Hstop|exact Hfs].
Defined.

(** X12. [stop_logging] deals with the monitoring subprocess before
    anything else and exactly once: if the sampler has started one, it is
    terminated first, whatever happens afterwards; if there is none,
    nothing is terminated. *)
Theorem stop_logging_terminates_first
    (E : Env) (self : PerformanceLogger) (w : World) :
  exists evs,
    trace (stop_logging E self w).2 =
      trace w ++ (match gpu_proc w with Some _ => [EvTerminate] | None => [] end) ++ evs /\
    ~ In EvTerminate evs /\
    gpu_proc (stop_logging E self w).2 =
      match gpu_proc w with Some _ => Some ProcTerminated | None => None end.
Proof.
  unfold stop_logging, bind, terminate_proc, call_convert_log_to_csv, try_except,
    os_remove, write_file, print, emit, ret. simpl.
  destruct (gpu_proc w) eqn:Hgp; simpl;
    destruct (convert_log_to_csv E (temp_gpu_log self) (gpu_log self) (fs w)) as [e|f]; simpl.
  all: try destruct (f !! temp_gpu_log self); simpl.
  all: try destruct (refuse w !! temp_gpu_log self) as [e'|]; simpl.
  all: try destruct (decide (e' = FileNotFoundError)); simpl.
  all: try destruct (refuse w !! time_log self); simpl.
  all: rewrite <- ?app_assoc; simpl.
  all: first
    [ exists []; split; [rewrite ?app_nil_r; reflexivity|]
    | eexists; split; [reflexivity|] ].
  all: split; [|rewrite ?Hgp; reflexivity].
  all: simpl; intros H; repeat (destruct H as [H|H]; [discriminate H|]); exact H.
Qed.

(** ** A server that does not answer *)

Lemma candidates_of_none (E : Env) model_name shape d_type pixels :
  server_infer E model_name (astype E d_type (preprocess E pixels shape).1) = None ->
  candidates_of E model_name shape d_type pixels = None.
Proof.
  unfold candidates_of. destruct (preprocess E pixels shape) as [img ratio]. simpl.
  intros ->. reflexivity.
Qed.

Lemma infer_image_server_failure (E : Env) model_name input_path output_path shape d_type
    w pixels :
  fs w !! input_path = Some (ImageFile pixels) ->
  server_infer E model_name (astype E d_type (preprocess E pixels shape).1) = None ->
  infer_image E model_name input_path output_path shape d_type w =
    (Raise InferenceServerException,
     mkWorld (fs w) (refuse w) (dirs w) (heap w ++ [pixels]) (gpu_proc w) (3 + tick w)
       (trace w ++ [EvImread input_path; EvInfer model_name])).
Proof.
  intros Hfs Hs.
  unfold infer_image, bind, time_time, cv2_imread, emit, bind. simpl.
  rewrite Hfs. simpl. rewrite lookup_snoc. simpl.
  destruct (preprocess E pixels shape) as [img ratio]. simpl in Hs.
  unfold client_infer, bind, emit. simpl. rewrite Hs.
  unfold raise. apply (f_equal2 pair); [reflexivity|].
  apply World_ext; simpl; rewrite <- ?app_assoc; reflexivity.
Qed.



(** X14. A batch run does not survive a server failure: when the server
    does not answer for the first image taken, [main] ends with the
    exception right there.  The sampler has been started and is not
    stopped, no other entry is read, no output image is written and the
    timing CSV is not saved. *)
Theorem batch_aborts_on_server_failure
    (E : Env) (args : Args) (fuel : nat) (w : World) (shape : list Z)
    (names : list string) (f : string) (rest : list string) (pixels : Image) :
  parse_input_shape E (input_shape args) w = (Ok shape, w) ->
  is_server_live E && is_server_ready E && is_model_ready E (model args) = true ->
  infer_mode args = Img ->
  dirs w !! image_dir args = Some names ->
  List.filter accepted names = f :: rest ->
  fs w !! path_join (image_dir args) f = Some (ImageFile pixels) ->
  server_infer E (model args) (astype E (data_type args) (preprocess E pixels shape).1)
    = None ->
  exists w',
    main E args fuel w = (Raise InferenceServerException, w') /\
    trace w' = trace w ++ [EvPrint (PMetadata (model args));
                           EvMkdir ("./output/" +:+ folder_name args);
                           EvThreadStart;
                           EvImread (path_join (image_dir args) f);
                           EvInfer (model args)] /\
    (forall g, fs w' !! out_path ("./output/" +:+ folder_name args)
                          (path_join (image_dir args) g)
               = fs w !! out_path ("./output/" +:+ folder_name args)
                           (path_join (image_dir args) g)) /\
    fs w' !! time_log (PerformanceLogger_init E) = fs w !! time_log (PerformanceLogger_init E).
Proof.
  intros Hp Hc Hm Hd Hfilter Hfs Hs.
  rewrite (main_batch E args fuel w shape Hp Hc Hm).
  unfold run_batch, bind at 1, emit at 1. unfold bind at 1, os_listdir. simpl.
  rewrite Hd. unfold image_files_of. rewrite Hfilter.
  unfold bind at 1, start_logging, bind at 1, emit at 1, ret at 1.
  unfold bind at 1. cbn [map batch_loop]. unfold bind at 1.
  rewrite (infer_image_server_failure E (model args) (path_join (image_dir args) f)
             ("./output/" +:+ folder_name args) shape (data_type args) _ pixels);
    [|exact Hfs|exact Hs].
  eexists. split; [reflexivity|]. simpl. rewrite <- !app_assoc. auto.
Qed.

Lemma batch_aborts_on_server_failure_witness :
  exists w',
    main (with_server Samples.env (fun _ _ => None)) (Samples.args_of "data" Img) 0
      Samples.world = (Raise InferenceServerException, w') /\
    fs w' !! "./output/test/a.png"%string = None /\
    fs w' !! "./log/20240101_120000_time_log.csv"%string = None.
Proof.
  destruct (batch_aborts_on_server_failure (with_server Samples.env (fun _ _ => None))
              (Samples.args_of "data" Img) 0 Samples.world Samples.shape416
              ["a.png"; "notes.txt"; "b.JPG"]%string "a.png" ["b.JPG"]%string
              Samples.img_hit)
    as (w' & Hrun & _ & Hout & Hlog).
  - reflexivity.
  - reflexivity.
  - reflexivity.
  - reflexivity.
  - reflexivity.
  - reflexivity.
  - reflexivity.
  - exists w'. split; [exact Hrun|]. split.
    + exact (eq_trans (Hout "a.png"%string) eq_refl).
    + exact (eq_trans Hlog eq_refl).
Defined.

(** ** Progress lines and the timing CSV *)

Section Progress.

Variable E : Env.

Lemma progress_lines_app (a b : list event) :
  progress_lines (a ++ b) = progress_lines a ++ progress_lines b.
Proof. apply flat_map_app. Qed.

(** [infer_image] prints no progress line. *)
Lemma infer_image_progress model_name input_path output_path shape d_type w :
  exists evs,
    trace (infer_image E model_name input_path output_path shape d_type w).2
      = trace w ++ evs /\
    progress_lines evs = [].
Proof.
  destruct (fs w !! input_path) as [[lines|rows|pixels]|] eqn:Hf.
  1, 2, 4: rewrite infer_image_no_image by (intros px; congruence);
    exists [EvImread input_path]; simpl; auto.
  destruct (candidates_of E model_name shape d_type pixels) as [[boxes scores]|] eqn:Hc.
  - rewrite (infer_image_outcome E model_name input_path output_path shape d_type w
               pixels boxes scores Hf Hc).
    cbn [fst snd]. unfold batch_world. cbn [trace]. eexists. split; [reflexivity|].
    destruct (multiclass_nms boxes scores nms_thr score_thr); reflexivity.
  - destruct (infer_image_no_answer E model_name input_path output_path shape d_type w
                pixels Hf Hc) as (w' & Hrun & Htr).
    rewrite Hrun. simpl. exists [EvImread input_path; EvInfer model_name]. auto.
Qed.

Lemma batch_loop_progress model_name output_path shape d_type total_length files :
  forall image_index totals logger w totals' logger' w',
  batch_loop E model_name output_path shape d_type total_length image_index
    files totals logger w = (Ok (totals', logger'), w') ->
  exists evs,
    trace w' = trace w ++ evs /\
    map fst (progress_lines evs)
      = map (fun i => (i, total_length)) (seq image_index (length files)) /\
    time_records logger' = time_records logger ++ map snd (progress_lines evs) /\
    time_log logger' = time_log logger.
Proof.
  induction files as [|image_path rest IH];
    intros image_index totals logger w totals' logger' w' Hrun.
  - simpl in Hrun. injection Hrun as _ <- <-. exists []. simpl.
    rewrite !app_nil_r. auto.
  - simpl in Hrun. unfold bind in Hrun.
    destruct (infer_image_progress model_name image_path output_path shape d_type w)
      as (evs1 & Htr1 & Hpr1).
    destruct (infer_image E model_name image_path output_path shape d_type w)
      as [[[[prep_time infer_time] postp_time]|e|] w1]; simpl in *;
      [|discriminate Hrun|discriminate Hrun].
    destruct totals as [[total_prep total_infer] total_postp].
    apply IH in Hrun. destruct Hrun as (evs2 & Htr2 & Hidx & Hrec & Hlog).
    simpl in Htr2, Hrec, Hlog.
    exists (evs1 ++ [EvPrint (PProgress image_index total_length
                                prep_time infer_time postp_time)] ++ evs2).
    split; [rewrite Htr2, Htr1, <- !app_assoc; reflexivity|].
    rewrite !progress_lines_app, Hpr1. simpl.
    split; [rewrite Hidx; reflexivity|].
    split; [rewrite Hrec, <- app_assoc; reflexivity|exact Hlog].
Qed.

(** [stop_logging] prints no progress line. *)
Lemma stop_logging_progress self w :
  exists evs,
    trace (stop_logging E self w).2 = trace w ++ evs /\ progress_lines evs = [].
Proof.
  unfold stop_logging, bind, terminate_proc, call_convert_log_to_csv, try_except,
    os_remove, write_file, print, emit, ret. simpl.
  destruct (gpu_proc w); simpl;
    destruct (convert_log_to_csv E (temp_gpu_log self) (gpu_log self) (fs w)) as [e|f]; simpl.
  all: try destruct (f !! temp_gpu_log self); simpl.
  all: try destruct (refuse w !! temp_gpu_log self) as [e'|]; simpl.
  all: try destruct (decide (e' = FileNotFoundError)); simpl.
  all: try destruct (refuse w !! time_log self); simpl.
  all: first
    [ exists []; split; [rewrite app_nil_r; reflexivity|]
    | eexists; split; [rewrite <- ?app_assoc; reflexivity|] ].
  all: reflexivity.
Qed.

(** A batch run that returns has gone through the whole loop and through
    [stop_logging]. *)
Lemma run_batch_ok_inv args shape w names :
  dirs w !! image_dir args = Some names ->
  (run_batch E args shape (PerformanceLogger_init E) w).1 = Ok tt ->
  exists totals logger w3 w4 logger',
    batch_loop E (model args) ("./output/" +:+ folder_name args) shape (data_type args)
      (length (image_files_of (image_dir args) names)) 1
      (image_files_of (image_dir args) names) (0, 0, 0)
      (mkLogger true true [] (temp_gpu_log (PerformanceLogger_init E))
         (gpu_log (PerformanceLogger_init E)) (time_log (PerformanceLogger_init E)))
      (set_trace ((trace w ++ [EvMkdir ("./output/" +:+ folder_name args)])
                    ++ [EvThreadStart]) w)
      = (Ok (totals, logger), w3) /\
    (exists evs, trace w4 = trace w3 ++ evs /\ progress_lines evs = []) /\
    stop_logging E logger w4
      = (Ok logger', (run_batch E args shape (PerformanceLogger_init E) w).2).
Proof.
  intros Hd.
  remember (run_batch E args shape (PerformanceLogger_init E) w) as r eqn:Hr.
  unfold run_batch, bind, emit, os_listdir, start_logging in Hr.
  cbn -[stop_logging batch_loop image_files_of] in Hr. rewrite Hd in Hr.
  cbn -[stop_logging batch_loop image_files_of] in Hr.
  match type of Hr with
  | context [batch_loop E ?m ?o ?s ?d ?t ?i ?f ?tt ?l ?w2] =>
      change (batch_loop E m o s d t i f tt l w2)
        with (batch_loop E m o s d t i f tt
                (mkLogger true true [] (temp_gpu_log (PerformanceLogger_init E))
                   (gpu_log (PerformanceLogger_init E))
                   (time_log (PerformanceLogger_init E)))
                (set_trace ((trace w ++ [EvMkdir ("./output/" +:+ folder_name args)])
                              ++ [EvThreadStart]) w)) in Hr |- *;
      destruct (batch_loop E m o s d t i f tt
                  (mkLogger true true [] (temp_gpu_log (PerformanceLogger_init E))
                     (gpu_log (PerformanceLogger_init E))
                     (time_log (PerformanceLogger_init E)))
                  (set_trace ((trace w ++ [EvMkdir ("./output/" +:+ folder_name args)])
                                ++ [EvThreadStart]) w))
        as [[[[[tp ti] tpp] lg]|e|] w3]
  end; [|subst r; intros H; discriminate H ..].
  unfold py_div in Hr.
  destruct (length (image_files_of (image_dir args) names));
    [subst r; intros H; discriminate H|].
  cbn -[stop_logging] in Hr.
  match type of Hr with
  | context [stop_logging E lg ?w4] =>
      destruct (stop_logging E lg w4) as [[lg'|e|] w5] eqn:Hstop
  end; subst r; intros H; try discriminate H.
  do 5 eexists. split; [reflexivity|]. split; [|exact Hstop].
  eexists. simpl. rewrite <- !app_assoc. split; [reflexivity|reflexivity].
Qed.

End Progress.

(** X15. In a batch run that returns, the console and the timing CSV
    tell the same story: the progress lines are numbered 1 to [n] out of
    [n], where [n] is the number of entries taken, and the CSV rows after
    the header are the durations of those lines, in the same order. *)
Theorem progress_lines_match_the_csv
    (E : Env) (args : Args) (fuel : nat) (w : World) (shape : list Z)
    (names : list string) :
  parse_input_shape E (input_shape args) w = (Ok shape, w) ->
  is_server_live E && is_server_ready E && is_model_ready E (model args) = true ->
  infer_mode args = Img ->
  dirs w !! image_dir args = Some names ->
  (main E args fuel w).1 = Ok tt ->
  let n := length (List.filter accepted names) in
  exists evs,
    trace (main E args fuel w).2 = trace w ++ evs /\
    map fst (progress_lines evs) = map (fun i => (i, n)) (seq 1 n) /\
    fs (main E args fuel w).2 !! time_log (PerformanceLogger_init E)
      = Some (CsvFile (time_log_header
                         :: map (fun l => record_row l.2) (progress_lines evs))).
Proof.
  intros Hp Hc Hm Hd Hok n.
  rewrite (main_batch E args fuel w shape Hp Hc Hm) in *.
  destruct (run_batch_ok_inv E args shape
              (set_trace (trace w ++ [EvPrint (PMetadata (model args))]) w) names Hd Hok)
    as (totals & logger & w3 & w4 & logger' & Hloop & (evsP & HtrP & HprP) & Hstop).
  apply batch_loop_progress in Hloop.
  destruct Hloop as (evsL & HtrL & Hidx & Hrec & Hlog). simpl in HtrL, Hrec, Hlog.
  destruct (stop_logging_progress E logger w4) as (evsS & HtrS & HprS).
  destruct (stop_logging_events E logger w4) as (_ & _ & _ & _ & Hcsv).
  specialize (Hcsv logger'). rewrite Hstop in HtrS, Hcsv. simpl in HtrS, Hcsv.
  specialize (Hcsv eq_refl).
  exists ([EvPrint (PMetadata (model args)); EvMkdir ("./output/" +:+ folder_name args);
           EvThreadStart] ++ evsL ++ evsP ++ evsS).
  split; [rewrite HtrS, HtrP, HtrL, <- !app_assoc; reflexivity|].
  rewrite !progress_lines_app, HprP, HprS, !app_nil_r. simpl.
  unfold image_files_of in Hidx. rewrite length_map in Hidx.
  split; [exact Hidx|].
  rewrite <- Hlog, Hcsv. unfold time_log_rows. rewrite Hrec, map_map. reflexivity.
Qed.

Lemma progress_lines_match_the_csv_witness :
  exists evs,
    trace (main Samples.env (Samples.args_of "data" Img) 0 Samples.world).2 = evs /\
    map fst (progress_lines evs) = [(1, 2); (2, 2)]%nat.
Proof.
  destruct (progress_lines_match_the_csv Samples.env (Samples.args_of "data" Img) 0
              Samples.world Samples.shape416 ["a.png"; "notes.txt"; "b.JPG"]%string)
    as (evs & Htr & Hidx & _).
  - reflexivity.
  - reflexivity.
  - reflexivity.
  - reflexivity.
  - reflexivity.
  - exists evs. split; [exact Htr|exact Hidx].
Defined.

(** ** One image, both modes *)

(** X16. Both modes run the same pipeline: for the shape the camera
    request is declared with, the same pixels, a server that answers and
    an output name that has an encoder, the picture [infer_image] hands
    to [cv2.imwrite] and the picture in the buffer [infer_camera]
    returns are the same. *)
Theorem both_modes_give_the_same_picture
    (E : Env) (model_name : string) (shape : list Z) (d_type : dtype)
    (pixels : Image) (boxes : list Box) (scores : list (list Q))
    (input_path output_path : string) (w1 : World) (input : nat) (w2 : World)
    (c : codec) :
  request_shape_fits shape ->
  cv2_encoder E (out_path output_path input_path) = Some c ->
  candidates_of E model_name shape d_type pixels = Some (boxes, scores) ->
  fs w1 !! input_path = Some (ImageFile pixels) ->
  heap w2 !! input = Some pixels ->
  exists times w1' output w2' picture,
    infer_image E model_name input_path output_path shape d_type w1 = (Ok times, w1') /\
    infer_camera E model_name input shape d_type w2 = (Ok output, w2') /\
    In (EvImwrite (out_path output_path input_path) picture) (trace w1') /\
    heap w2' !! output = Some picture.
Proof.
  intros _ Henc Hc Hfs Hin.
  pose proof (infer_image_run E model_name input_path output_path shape d_type w1
                pixels boxes scores c Hfs Hc Henc) as Hbatch.
  pose proof (infer_camera_run E model_name input shape d_type w2 pixels boxes scores
                Hin Hc) as Hcam.
  eexists. eexists. eexists. eexists.
  exists (pictured E pixels (multiclass_nms boxes scores nms_thr score_thr)).
  split; [exact Hbatch|]. split; [exact Hcam|]. split.
  - unfold batch_world, out_path. cbn [trace]. apply in_or_app. right.
    apply in_or_app. right. apply in_or_app. right. left. reflexivity.
  - unfold cam_world, cam_output. cbn [heap].
    destruct (multiclass_nms boxes scores nms_thr score_thr) as [dets|]; cbn [pictured].
    + destruct (vis_copies E).
      * change (heap w2 ++ [pixels; drawn E pixels dets])
          with (heap w2 ++ [pixels] ++ [drawn E pixels dets]).
        rewrite app_assoc.
        replace (S (length (heap w2))) with (length (heap w2 ++ [pixels]))
          by (rewrite length_app; simpl; lia).
        apply lookup_snoc.
      * apply list_lookup_insert_eq. rewrite length_app. simpl.
        apply lookup_lt_Some in Hin. lia.
    + apply lookup_snoc.
Qed.

Lemma both_modes_give_the_same_picture_witness :
  exists times w1' output w2' picture,
    infer_image Samples.env "yolox" "data/a.png" "./output/test" Samples.shape416 FP32
      Samples.world = (Ok times, w1') /\
    infer_camera Samples.env "yolox" 0 Samples.shape416 FP32
      (Samples.world_with Samples.img_hit) = (Ok output, w2') /\
    In (EvImwrite "./output/test/a.png" picture) (trace w1') /\
    heap w2' !! output = Some picture.
Proof.
  exact (both_modes_give_the_same_picture Samples.env "yolox" Samples.shape416 FP32
           Samples.img_hit [mkBox (0 # 2) (0 # 2) (20 # 2) (20 # 2)] [[1; 0]]
           "data/a.png" "./output/test" Samples.world 0
           (Samples.world_with Samples.img_hit) Lossless
           eq_refl eq_refl eq_refl eq_refl eq_refl).
Defined.

(** ** Durations *)

Lemma infer_image_times (E : Env) model_name input_path output_path shape d_type w
    pixels boxes scores c :
  fs w !! input_path = Some (ImageFile pixels) ->
  candidates_of E model_name shape d_type pixels = Some (boxes, scores) ->
  cv2_encoder E (out_path output_path input_path) = Some c ->
  (infer_image E model_name input_path output_path shape d_type w).1 =
    Ok ((clock E (1 + tick w) - clock E (tick w)) * 1000,
        (clock E (3 + tick w) - clock E (2 + tick w)) * 1000,
        (clock E (5 + tick w) - clock E (4 + tick w)) * 1000).
Proof.
  intros Hfs Hc Henc.
  rewrite (infer_image_run E model_name input_path output_path shape d_type w
             pixels boxes scores c Hfs Hc Henc).
  reflexivity.
Qed.

Lemma duration_nonneg (a b : Q) : a <= b -> 0 <= (b - a) * 1000.
Proof.
  intros H. apply Qmult_le_0_compat; [|discriminate].
  unfold Qminus. apply Qle_minus_iff in H. exact H.
Qed.

(** X17. The three durations [infer_image] returns, when [cv2.imwrite]
    has an encoder for the output name, are differences of consecutive
    clock readings, in milliseconds: the second minus the first, the
    fourth minus the third and the sixth minus the fifth of the six
    readings of a call.  With a clock that never runs backwards none of
    them is negative. *)
Theorem durations_are_not_negative
    (E : Env) (model_name input_path output_path : string) (shape : list Z)
    (d_type : dtype) (w : World) (pixels : Image) (boxes : list Box)
    (scores : list (list Q)) (c : codec) :
  monotone_clock E ->
  fs w !! input_path = Some (ImageFile pixels) ->
  candidates_of E model_name shape d_type pixels = Some (boxes, scores) ->
  cv2_encoder E (out_path output_path input_path) = Some c ->
  exists prep_time infer_time postp_time,
    (infer_image E model_name input_path output_path shape d_type w).1
      = Ok (prep_time, infer_time, postp_time) /\
    prep_time = (clock E (1 + tick w) - clock E (tick w)) * 1000 /\
    infer_time = (clock E (3 + tick w) - clock E (2 + tick w)) * 1000 /\
    postp_time = (clock E (5 + tick w) - clock E (4 + tick w)) * 1000 /\
    0 <= prep_time /\ 0 <= infer_time /\ 0 <= postp_time.
Proof.
  intros Hmono Hfs Hc Henc. do 3 eexists.
  split; [exact (infer_image_times E model_name input_path output_path shape d_type w
                   pixels boxes scores c Hfs Hc Henc)|].
  split; [reflexivity|]. split; [reflexivity|]. split; [reflexivity|].
  split; [|split]; apply duration_nonneg; apply Hmono.
Qed.

Lemma durations_are_not_negative_witness :
  exists prep_time infer_time postp_time,
    (infer_image Samples.env "yolox" "data/a.png" "./output/test" Samples.shape416 FP32
       Samples.world).1 = Ok (prep_time, infer_time, postp_time) /\
    0 <= prep_time /\ 0 <= infer_time /\ 0 <= postp_time.
Proof.
  destruct (durations_are_not_negative Samples.env "yolox" "data/a.png" "./output/test"
              Samples.shape416 FP32 Samples.world Samples.img_hit
              [mkBox (0 # 2) (0 # 2) (20 # 2) (20 # 2)] [[1; 0]] Lossless)
    as (p & i & q & Hrun & _ & _ & _ & Hp & Hi & Hq).
  - intros n. unfold Qle. simpl. lia.
  - reflexivity.
  - reflexivity.
  - reflexivity.
  - exists p, i, q. auto.
Defined.

(** X18. A refused output path is passed over in silence: when the
    output name has an encoder, [cv2.imwrite] reports a path it cannot
    write by its result, which [infer_image] does not look at, so the
    call returns its durations as usual while no output file is
    written. *)
Theorem refused_output_is_silent
    (E : Env) (model_name input_path output_path : string) (shape : list Z)
    (d_type : dtype) (w : World) (pixels : Image) (boxes : list Box)
    (scores : list (list Q)) (e : exn) (c : codec) :
  fs w !! input_path = Some (ImageFile pixels) ->
  candidates_of E model_name shape d_type pixels = Some (boxes, scores) ->
  cv2_encoder E (out_path output_path input_path) = Some c ->
  refuse w !! out_path output_path input_path = Some e ->
  exists times w' picture,
    infer_image E model_name input_path output_path shape d_type w = (Ok times, w') /\
    In (EvImwrite (out_path output_path input_path) picture) (trace w') /\
    fs w' = fs w.
Proof.
  intros Hfs Hc Henc Hr.
  pose proof (infer_image_run E model_name input_path output_path shape d_type w
                pixels boxes scores c Hfs Hc Henc) as Hrun.
  eexists. eexists. eexists. split; [exact Hrun|].
  unfold batch_world. cbn [trace fs]. unfold out_path in *. rewrite Henc, Hr.
  split; [|reflexivity].
  apply in_or_app. right. apply in_or_app. right. apply in_or_app. right.
  left. reflexivity.
Qed.

Lemma refused_output_is_silent_witness :
  exists times w' picture,
    infer_image Samples.env "yolox" "data/a.png" "./output/test" Samples.shape416 FP32
      (mkWorld Samples.files {["./output/test/a.png" := PermissionError]}%string
         ∅ [] None 0 []) = (Ok times, w') /\
    In (EvImwrite "./output/test/a.png" picture) (trace w') /\
    fs w' = Samples.files.
Proof.
  exact (refused_output_is_silent Samples.env "yolox" "data/a.png" "./output/test"
           Samples.shape416 FP32
           (mkWorld Samples.files {["./output/test/a.png" := PermissionError]}%string
              ∅ [] None 0 [])
           Samples.img_hit [mkBox (0 # 2) (0 # 2) (20 # 2) (20 # 2)] [[1; 0]]
           PermissionError Lossless eq_refl eq_refl eq_refl eq_refl).
Defined.

(** ** An output name without an encoder *)

(** X20. [cv2.imwrite] chooses its encoder by the extension of the
    output name, and the filter of batch mode does not ask for one.
    When there is no encoder for the output name, [infer_image] reads
    the image, asks the server, and ends at [cv2.imwrite] with
    [cv2.error]: no file is written and no durations are returned. *)
Theorem output_name_without_encoder_raises
    (E : Env) (model_name input_path output_path : string) (shape : list Z)
    (d_type : dtype) (w : World) (pixels : Image) (boxes : list Box)
    (scores : list (list Q)) :
  fs w !! input_path = Some (ImageFile pixels) ->
  candidates_of E model_name shape d_type pixels = Some (boxes, scores) ->
  cv2_encoder E (out_path output_path input_path) = None ->
  exists w' picture,
    infer_image E model_name input_path output_path shape d_type w = (Raise Cv2Error, w') /\
    images_read (trace w') = images_read (trace w) ++ [input_path] /\
    inferences (trace w') = inferences (trace w) ++ [model_name] /\
    In (EvImwrite (out_path output_path input_path) picture) (trace w') /\
    fs w' = fs w.
Proof.
  intros Hfs Hc Henc.
  pose proof (infer_image_outcome E model_name input_path output_path shape d_type w
                pixels boxes scores Hfs Hc) as Hrun.
  unfold batch_outcome in Hrun. unfold out_path in Henc. rewrite Henc in Hrun.
  eexists. exists (pictured E pixels (multiclass_nms boxes scores nms_thr score_thr)).
  split; [exact Hrun|].
  unfold batch_world, out_path. cbn [trace fs]. rewrite Henc.
  unfold images_read, inferences. rewrite !flat_map_app.
  destruct (multiclass_nms boxes scores nms_thr score_thr) as [dets|]; simpl;
    rewrite ?app_nil_r.
  - split; [reflexivity|]. split; [reflexivity|]. split; [|reflexivity].
    apply in_or_app. right. right. right. right. left. reflexivity.
  - split; [reflexivity|]. split; [reflexivity|]. split; [|reflexivity].
    apply in_or_app. right. right. right. left. reflexivity.
Qed.

Lemma output_name_without_encoder_raises_witness :
  exists w',
    infer_image Samples.env "yolox" "data/png" "./output/test" Samples.shape416 FP32
      Samples.world_bare_name = (Raise Cv2Error, w') /\
    fs w' !! "./output/test/png"%string = None.
Proof.
  destruct (output_name_without_encoder_raises Samples.env "yolox" "data/png"
              "./output/test" Samples.shape416 FP32 Samples.world_bare_name
              Samples.img_miss [mkBox (0 # 2) (0 # 2) (20 # 2) (20 # 2)] [[0; 0]]
              eq_refl eq_refl eq_refl)
    as (w' & picture & Hrun & _ & _ & _ & Hfs).
  exists w'. split; [exact Hrun|]. rewrite Hfs. reflexivity.
Defined.

Lemma has_dot_app (a b : string) : has_dot (a +:+ b) = has_dot a || has_dot b.
Proof.
  induction a as [|c a IH]; simpl; [reflexivity|].
  rewrite IH, orb_assoc. reflexivity.
Qed.

Lemma after_last_dot_none (s : string) : has_dot s = false -> after_last_dot s = None.
Proof.
  induction s as [|c s IH]; [reflexivity|]. cbn [has_dot after_last_dot].
  intros H. apply orb_false_iff in H. destruct H as [Hc Hs].
  rewrite (IH Hs), Hc. reflexivity.
Qed.

(** X21. Batch mode cannot write the picture of an entry whose name
    has no dot, such as [png], when the folder name has none either:
    the only dot of the output path is the one of [./output], what
    follows it starts with a slash, and [cv2.imwrite] finds no encoder
    for it in any build. *)
Theorem name_without_dot_has_no_encoder (E : Env) (folder dir f : string) :
  has_dot folder = false -> has_dot f = false -> has_slash f = false ->
  cv2_encoder E (out_path ("./output/" +:+ folder) (path_join dir f)) = None.
Proof.
  intros Hfolder Hf Hs. unfold out_path. rewrite (basename_path_join dir f Hs).
  assert (Hjoin : exists rest,
            path_join ("./output/" +:+ folder) f = String dot (String slash rest) /\
            has_dot rest = false).
  { unfold path_join. rewrite (no_slash_not_absolute f Hs).
    destruct (_ || _).
    - exists ("output/" +:+ folder +:+ f)%string. split; [reflexivity|].
      rewrite !has_dot_app, Hfolder, Hf. reflexivity.
    - exists ("output/" +:+ folder +:+ String slash f)%string. split.
      + change ("./output/" +:+ folder)%string
          with (String dot (String slash ("output/" +:+ folder)))%string.
        change (String dot (String slash ("output/" +:+ folder)) +:+ String slash f)%string
          with (String dot (String slash (("output/" +:+ folder) +:+ String slash f)))%string.
        rewrite string_app_assoc. reflexivity.
      + rewrite !has_dot_app. cbn [has_dot]. rewrite Hfolder, Hf. reflexivity. }
  destruct Hjoin as (rest & -> & Hrest).
  unfold cv2_encoder, extension. cbn [after_last_dot].
  rewrite (after_last_dot_none rest Hrest). reflexivity.
Qed.

Lemma name_without_dot_has_no_encoder_witness :
  cv2_encoder Samples.env (out_path "./output/test" (path_join "data" "png")) = None.
Proof.
  apply (name_without_dot_has_no_encoder Samples.env "test" "data" "png"); reflexivity.
Defined.

(** ** A missing image directory *)

(** X19. When the image directory does not exist, batch mode fails at
    the listing with [FileNotFoundError]: the output directory has
    already been asked for, but the sampler is not started, nothing is
    read and no file is written. *)
Theorem missing_image_directory_raises
    (E : Env) (args : Args) (fuel : nat) (w : World) (shape : list Z) :
  parse_input_shape E (input_shape args) w = (Ok shape, w) ->
  is_server_live E && is_server_ready E && is_model_ready E (model args) = true ->
  infer_mode args = Img ->
  dirs w !! image_dir args = None ->
  exists w',
    main E args fuel w = (Raise FileNotFoundError, w') /\
    trace w' = trace w ++ [EvPrint (PMetadata (model args));
                           EvMkdir ("./output/" +:+ folder_name args)] /\
    fs w' = fs w.
Proof.
  intros Hp Hc Hm Hd.
  rewrite (main_batch E args fuel w shape Hp Hc Hm).
  unfold run_batch, bind, emit, os_listdir. simpl. rewrite Hd.
  eexists. split; [reflexivity|]. simpl. rewrite <- app_assoc. auto.
Qed.

Lemma missing_image_directory_raises_witness :
  exists w',
    main Samples.env (Samples.args_of "nowhere" Img) 0 Samples.world
      = (Raise FileNotFoundError, w') /\
    fs w' = Samples.files.
Proof.
  destruct (missing_image_directory_raises Samples.env (Samples.args_of "nowhere" Img) 0
              Samples.world Samples.shape416) as (w' & Hrun & _ & Hfs).
  - reflexivity.
  - reflexivity.
  - reflexivity.
  - reflexivity.
  - exists w'. split; [exact Hrun|exact Hfs].
Defined.
